(** * two1.commands.login: the [21 login] command

    A shallow embedding of [src/two1/commands/login.py] and the properties
    of its identity-resolution and session-binding logic.

    The command is effectful Python: it prints, prompts, talks to an account
    service, and mutates a [Config] object that is flushed to a file.  The
    embedding threads a [World] through a small state-and-exception monad;
    every call that leaves the module (click, the rest client, the wallet
    library, the config object) appends an [event] to the world's trace, and
    takes its answer from the [Env] part of the world. *)

From Stdlib Require Import ZArith String Ascii List Lia.
From Stdlib.Strings Require Import Byte.
From stdpp Require Import base option list gmap strings pretty.

Local Open Scope Z_scope.
Local Open Scope string_scope.

(** ** Python values that reach string formatting and the config store *)

Inductive pyval :=
| PNone
| PInt (z : Z)
| PStr (s : string).

#[global] Instance pyval_eq_dec : EqDecision pyval.
Proof. solve_decision. Defined.

(** [str(v)] *)
Definition py_str (v : pyval) : string :=
  match v with
  | PNone => "None"
  | PInt z => pretty z
  | PStr s => s
  end.

(** [bool(v)]: None, 0 and the empty string are falsy. *)
Definition truthy (v : pyval) : bool :=
  match v with
  | PNone => false
  | PInt z => negb (Z.eqb z 0)
  | PStr s => negb (String.eqb s "")
  end.

Definition opt_val (o : option string) : pyval :=
  match o with
  | None => PNone
  | Some s => PStr s
  end.

(** ** [str.format]

    The replacement-field fragment the module's templates use: literal text,
    [{}] (automatic numbering), [{N}] (explicit index) and the escapes
    [{{] and [}}].  [None] stands for the cases where Python raises
    (a lone brace, an index past the arguments, switching between automatic
    and explicit numbering) and for fields outside the fragment (names,
    conversions, format specs). *)

Inductive numbering :=
| NumUnset
| NumAuto (next : nat)
| NumManual.

Inductive fstate :=
| FText
| FOpen
| FIndex (n : nat)
| FClose.

Definition digit_of (c : ascii) : option nat :=
  let n := nat_of_ascii c in
  if ((48 <=? n)%nat && (n <=? 57)%nat)%bool then Some (n - 48)%nat else None.

Fixpoint format_go (tmpl : string) (args : list pyval)
    (st : fstate) (num : numbering) : option string :=
  match tmpl with
  | EmptyString =>
      match st with
      | FText => Some EmptyString
      | _ => None
      end
  | String c rest =>
      match st with
      | FText =>
          if Ascii.eqb c "{" then format_go rest args FOpen num
          else if Ascii.eqb c "}" then format_go rest args FClose num
          else String c <$> format_go rest args FText num
      | FClose =>
          if Ascii.eqb c "}" then String "}" <$> format_go rest args FText num
          else None
      | FOpen =>
          if Ascii.eqb c "{" then String "{" <$> format_go rest args FText num
          else if Ascii.eqb c "}" then
            match num with
            | NumManual => None
            | NumUnset | NumAuto _ =>
                let i := match num with NumAuto n => n | _ => O end in
                a ← args !! i;
                r ← format_go rest args FText (NumAuto (S i));
                Some (py_str a ++ r)
            end
          else
            match digit_of c with
            | Some d => format_go rest args (FIndex d) num
            | None => None
            end
      | FIndex n =>
          if Ascii.eqb c "}" then
            match num with
            | NumAuto _ => None
            | NumUnset | NumManual =>
                a ← args !! n;
                r ← format_go rest args FText NumManual;
                Some (py_str a ++ r)
            end
          else
            match digit_of c with
            | Some d => format_go rest args (FIndex (10 * n + d)) num
            | None => None
            end
      end
  end.

Definition pyformat (tmpl : string) (args : list pyval) : option string :=
  format_go tmpl args FText NumUnset.

(** ** [base64.b64encode] *)

Definition b64_alphabet : list ascii :=
  list_ascii_of_string
    "ABCDEFGHIJKLMNOPQRSTUVWXYZabcdefghijklmnopqrstuvwxyz0123456789+/".

Definition b64_char (n : Z) : ascii :=
  nth (Z.to_nat (Z.land n 63)) b64_alphabet "="%char.

Definition byte_Z (b : byte) : Z := Z.of_N (Byte.to_N b).

Fixpoint b64encode (bs : list byte) : string :=
  match bs with
  | [] => EmptyString
  | [b0] =>
      let n := Z.shiftl (byte_Z b0) 16 in
      String (b64_char (Z.shiftr n 18))
        (String (b64_char (Z.shiftr n 12)) "==")
  | [b0; b1] =>
      let n := Z.lor (Z.shiftl (byte_Z b0) 16) (Z.shiftl (byte_Z b1) 8) in
      String (b64_char (Z.shiftr n 18))
        (String (b64_char (Z.shiftr n 12))
           (String (b64_char (Z.shiftr n 6)) "="))
  | b0 :: b1 :: b2 :: rest =>
      let n := Z.lor (Z.lor (Z.shiftl (byte_Z b0) 16) (Z.shiftl (byte_Z b1) 8))
                 (byte_Z b2) in
      String (b64_char (Z.shiftr n 18))
        (String (b64_char (Z.shiftr n 12))
           (String (b64_char (Z.shiftr n 6))
              (String (b64_char n) (b64encode rest))))
  end.

Example pyformat_numbered :
  pyformat "{}- {}" [PInt 2; PStr "bob"] = Some "2- bob".
Proof. reflexivity. Qed.

Example pyformat_explicit :
  pyformat "pick {0}..{1} {{x}}" [PInt 1; PInt 12] = Some "pick 1..12 {x}".
Proof. reflexivity. Qed.

Example pyformat_mixed : pyformat "{0} {}" [PInt 1; PInt 2] = None.
Proof. reflexivity. Qed.

Example b64encode_Man : b64encode ["M"; "a"; "n"]%byte = "TWFu".
Proof. reflexivity. Qed.

Example b64encode_Ma : b64encode ["M"; "a"]%byte = "TWE=".
Proof. reflexivity. Qed.

Example b64encode_M : b64encode ["M"]%byte = "TQ==".
Proof. reflexivity. Qed.

(** ** Collaborators outside the module, at their interface *)

(** [machine_auth.public_key.compressed_bytes] *)
Record PublicKey := { compressed_bytes : list byte }.
Record MachineAuth := { public_key : PublicKey }.

#[global] Instance byte_eq_dec : EqDecision byte.
Proof.
  intros a b. destruct (decide (Byte.to_N a = Byte.to_N b)) as [E | E].
  - left. apply (f_equal Byte.of_N) in E.
    rewrite !Byte.of_to_N in E. congruence.
  - right. congruence.
Defined.

#[global] Instance PublicKey_eq_dec : EqDecision PublicKey.
Proof. solve_decision. Defined.

#[global] Instance MachineAuth_eq_dec : EqDecision MachineAuth.
Proof. solve_decision. Defined.

(** Modelled from the spec: the class [Config] of [two1.commands.config],
    which is not under src/.  It is a key-value store with an in-memory view
    and a backing file: [load] refreshes the view from the file,
    [update_key] changes the view, [save] flushes the view to the file.
    Attribute access ([config.username], [hasattr(config, "username")]) reads
    the view; [machine_auth] is an attribute that is set or not and is never
    written to the file.  The backing file is the [w_store] of the world. *)
Record Config := {
  cfg_machine_auth : option MachineAuth;
  cfg_view : gmap string pyval;
}.

(** Modelled from the spec: the constants of [two1.lib.util.uxstring.UxString]
    that the module reads; the class is not under src/. *)
Record UxStringT := {
  login_username : string;
  login_password : string;
  no_account_found : string;
  registered_usernames_title : string;
  login_prompt : string;
  login_prompt_invalid_user : string;
  login_prompt_user_does_not_exist : string;
  Error_connection_cli : string;
  Error_server_err : string;
}.

(** Exceptions that cross the module. *)
Inductive exn :=
| DataProviderUnavailableError
| DataProviderError
| UnloggedException
| TwoOneError (msg : string)
| Abort                        (* click.exceptions.Abort *)
| SystemExit (code : Z)        (* sys.exit(code) *)
| NameError (name : string)
| AttributeError (name : string)
| IndexError
| FormatError                  (* str.format did not produce a string *)
| KeyboardInterrupt
| OtherError (name : string).

#[global] Instance exn_eq_dec : EqDecision exn.
Proof. solve_decision. Defined.

(** What the module does to the outside, in the order it does it. *)
Inductive event :=
| EvSecho (msg : string) (fg : option string)       (* click.secho *)
| EvPrint (line : string)                           (* print *)
| EvPrompt (text : string) (hide_input : bool) (integer : bool)
                                                    (* click.prompt *)
| EvGetPassword (username : pyval)                  (* get_password *)
| EvProvider (host : string)                        (* TwentyOneProvider *)
| EvCheckWalletFile (path : string)                 (* Two1Wallet.check_wallet_file *)
| EvWallet (path : string)                          (* Wallet, MachineAuthWallet *)
| EvRestClient (host : string) (auth : option MachineAuth)
    (username : option pyval)                       (* TwentyOneRestClient *)
| EvAccountInfo                                     (* client.account_info *)
| EvUpdatePassword (password : string)              (* client.update_password *)
| EvNewConfig                                       (* Config() *)
| EvCheckSetup                                      (* check_setup_twentyone_account *)
| EvConfigLoad                                      (* config.load *)
| EvConfigUpdateKey (key : string) (value : pyval)  (* config.update_key *)
| EvConfigSave.                                     (* config.save *)

#[global] Instance event_eq_dec : EqDecision event.
Proof. solve_decision. Defined.

(** The answers of the outside world. *)
Record Env := {
  wallet_file_present : bool;             (* is there a wallet file *)
  wallet_machine_auth : MachineAuth;      (* the identity of that wallet *)
  account_info_usernames : exn + list string;
                                          (* res.json()["usernames"], or the failure *)
  setup_outcome : option exn;             (* what check_setup_twentyone_account raises *)
  update_password_outcome : option exn;   (* what client.update_password raises *)
}.

(** The state a command runs in.  [w_int_answers] and [w_str_answers] are
    what the user will type at integer and at text prompts ([None]: the user
    aborts; an exhausted list is end of input, which click also turns into
    [Abort]).  [w_interrupt = Some k] delivers a [KeyboardInterrupt] in place
    of the (k+1)-th outside call from here on. *)
Record World := {
  w_env : Env;
  w_config : Config;
  w_store : gmap string pyval;
  w_trace : list event;
  w_int_answers : list (option Z);
  w_str_answers : list (option string);
  w_interrupt : option nat;
}.

(** ** The monad: state, exceptions, and fuel for the one [while] loop *)

Inductive result (A : Type) :=
| Ret (a : A)
| Raise (e : exn)
| OutOfFuel.
Arguments Ret {A} a.
Arguments Raise {A} e.
Arguments OutOfFuel {A}.

Definition M (A : Type) : Type := World -> result A * World.

Definition ret {A} (a : A) : M A := fun w => (Ret a, w).
Definition raise {A} (e : exn) : M A := fun w => (Raise e, w).
Definition bind {A B} (m : M A) (k : A -> M B) : M B :=
  fun w =>
    match m w with
    | (Ret a, w') => k a w'
    | (Raise e, w') => (Raise e, w')
    | (OutOfFuel, w') => (OutOfFuel, w')
    end.

#[global] Instance M_ret : MRet M := @ret.
#[global] Instance M_bind : MBind M := fun A B k m => bind m k.

Definition get_world : M World := fun w => (Ret w, w).
Definition set_world (f : World -> World) : M unit := fun w => (Ret tt, f w).

(** [try: body except ...:]: [handler e = None] when no clause matches. *)
Definition try_except {A} (body : M A) (handler : exn -> option (M A)) : M A :=
  fun w =>
    match body w with
    | (Raise e, w') =>
        match handler e with
        | Some h => h w'
        | None => (Raise e, w')
        end
    | r => r
    end.

Fixpoint for_each {A S} (l : list A) (body : A -> S -> M S) (s : S) : M S :=
  match l with
  | [] => ret s
  | x :: l' => s' ← body x s; for_each l' body s'
  end.

Fixpoint while_ {S} (fuel : nat) (cond : S -> bool) (body : S -> M S) (s : S)
    : M S :=
  if cond s then
    match fuel with
    | O => fun w => (OutOfFuel, w)
    | Datatypes.S fuel' => s' ← body s; while_ fuel' cond body s'
    end
  else ret s.

(** ** Outside calls *)

(** Append events to the trace. *)
Definition log (es : list event) (w : World) : World :=
  {| w_env := w_env w; w_config := w_config w; w_store := w_store w;
     w_trace := w_trace w ++ es;
     w_int_answers := w_int_answers w; w_str_answers := w_str_answers w;
     w_interrupt := w_interrupt w |}.

Definition with_config (c : Config) (w : World) : World :=
  {| w_env := w_env w; w_config := c; w_store := w_store w;
     w_trace := w_trace w;
     w_int_answers := w_int_answers w; w_str_answers := w_str_answers w;
     w_interrupt := w_interrupt w |}.

Definition with_store (s : gmap string pyval) (w : World) : World :=
  {| w_env := w_env w; w_config := w_config w; w_store := s;
     w_trace := w_trace w;
     w_int_answers := w_int_answers w; w_str_answers := w_str_answers w;
     w_interrupt := w_interrupt w |}.

Definition with_int_answers (q : list (option Z)) (w : World) : World :=
  {| w_env := w_env w; w_config := w_config w; w_store := w_store w;
     w_trace := w_trace w;
     w_int_answers := q; w_str_answers := w_str_answers w;
     w_interrupt := w_interrupt w |}.

Definition with_str_answers (q : list (option string)) (w : World) : World :=
  {| w_env := w_env w; w_config := w_config w; w_store := w_store w;
     w_trace := w_trace w;
     w_int_answers := w_int_answers w; w_str_answers := q;
     w_interrupt := w_interrupt w |}.

Definition with_interrupt (i : option nat) (w : World) : World :=
  {| w_env := w_env w; w_config := w_config w; w_store := w_store w;
     w_trace := w_trace w;
     w_int_answers := w_int_answers w; w_str_answers := w_str_answers w;
     w_interrupt := i |}.

(** Every outside call is a point where the pending interrupt, if it is due,
    is delivered instead of the call; otherwise the call is logged. *)
Definition effect (e : event) : M unit :=
  fun w =>
    match w_interrupt w with
    | Some O => (Raise KeyboardInterrupt, w)
    | Some (Datatypes.S k) => (Ret tt, log [e] (with_interrupt (Some k) w))
    | None => (Ret tt, log [e] w)
    end.

Definition secho (msg : string) (fg : option string) : M unit :=
  effect (EvSecho msg fg).

Definition print (line : string) : M unit := effect (EvPrint line).

(** [click.prompt(text, type=int)] *)
Definition prompt_int (text : string) : M Z :=
  effect (EvPrompt text false true);;
  w ← get_world;
  match w_int_answers w with
  | Some z :: q => set_world (with_int_answers q);; ret z
  | None :: q => set_world (with_int_answers q);; raise Abort
  | [] => raise Abort
  end.

Definition next_str_answer : M string :=
  w ← get_world;
  match w_str_answers w with
  | Some s :: q => set_world (with_str_answers q);; ret s
  | None :: q => set_world (with_str_answers q);; raise Abort
  | [] => raise Abort
  end.

(** [click.prompt(text, hide_input=..., type=str)] *)
Definition prompt_str (text : string) (hide_input : bool) : M string :=
  effect (EvPrompt text hide_input false);; next_str_answer.

(** Modelled from the spec: [get_password] of [two1.lib.server.login], not
    under src/: it prompts for a new password with the input hidden, and a
    cancelled prompt raises [Abort]. *)
Definition get_password (username : pyval) : M string :=
  effect (EvGetPassword username);; next_str_answer.

(** [template.format(args...)], raising when [pyformat] gives no string *)
Definition format (tmpl : string) (args : list pyval) : M string :=
  match pyformat tmpl args with
  | Some s => ret s
  | None => raise FormatError
  end.

(** [config.<name>]: an [AttributeError] when the view has no such key. *)
Definition getattr_config (name : string) : M pyval :=
  w ← get_world;
  match cfg_view (w_config w) !! name with
  | Some v => ret v
  | None => raise (AttributeError name)
  end.

(** [hasattr(config, name)] *)
Definition hasattr_config (name : string) : M bool :=
  w ← get_world; ret (bool_decide (is_Some (cfg_view (w_config w) !! name))).

Definition config_load : M unit :=
  effect EvConfigLoad;;
  set_world (fun w =>
    with_config {| cfg_machine_auth := cfg_machine_auth (w_config w);
                   cfg_view := w_store w |} w).

Definition config_update_key (key : string) (value : pyval) : M unit :=
  effect (EvConfigUpdateKey key value);;
  set_world (fun w =>
    with_config {| cfg_machine_auth := cfg_machine_auth (w_config w);
                   cfg_view := <[key := value]> (cfg_view (w_config w)) |} w).

Definition config_save : M unit :=
  effect EvConfigSave;;
  set_world (fun w => with_store (cfg_view (w_config w)) w).

(** [Two1Wallet.check_wallet_file(path)] *)
Definition check_wallet_file (path : string) : M bool :=
  effect (EvCheckWalletFile path);;
  w ← get_world; ret (wallet_file_present (w_env w)).

(** [MachineAuthWallet(Wallet(wallet_path=path, data_provider=dp))] *)
Definition open_wallet (path : string) : M MachineAuth :=
  effect (EvWallet path);;
  w ← get_world; ret (wallet_machine_auth (w_env w)).

(** [client.account_info().json()["usernames"]] *)
Definition account_info : M (list string) :=
  effect EvAccountInfo;;
  w ← get_world;
  match account_info_usernames (w_env w) with
  | inr usernames => ret usernames
  | inl e => raise e
  end.

(** [client.update_password(password)] *)
Definition update_password (password : string) : M unit :=
  effect (EvUpdatePassword password);;
  w ← get_world;
  match update_password_outcome (w_env w) with
  | None => ret tt
  | Some e => raise e
  end.

(** [check_setup_twentyone_account(cfg)] *)
Definition check_setup_twentyone_account : M unit :=
  effect EvCheckSetup;;
  w ← get_world;
  match setup_outcome (w_env w) with
  | None => ret tt
  | Some e => raise e
  end.

(** [l[i]] with Python's negative indices. *)
Definition py_index {A} (l : list A) (i : Z) : M A :=
  let n := Z.of_nat (length l) in
  let j := if Z.ltb i 0 then i + n else i in
  if Z.ltb j 0 then raise IndexError
  else match l !! Z.to_nat j with
       | Some x => ret x
       | None => raise IndexError
       end.

(** ** login.py

    The [config] argument of the Python functions is the one [Config] object
    of the world ([w_config]); the decorators [json_output],
    [check_notifications] and [capture_usage] wrap the functions from outside
    the module and are not part of the bodies embedded here. *)

Section Login.

(** Constants the module imports. *)
Variable UxString : UxStringT.
Variable TWO1_HOST : string.
Variable TWO1_PROVIDER_HOST : string.
Variable DEFAULT_WALLET_PATH : string.

Definition create_wallet_and_account : M unit :=
  try_except
    (effect EvNewConfig;;
     check_setup_twentyone_account)
    (fun e =>
       match e with
       | DataProviderUnavailableError =>
           Some (raise (TwoOneError (Error_connection_cli UxString)))
       | DataProviderError =>
           Some (raise (TwoOneError (Error_server_err UxString)))
       | UnloggedException => Some (raise (SystemExit 1))
       | _ => None
       end).

Definition save_config (machine_auth : MachineAuth) (username : string)
    : M unit :=
  let machine_auth_pubkey_b64 :=
    b64encode (compressed_bytes (public_key machine_auth)) in
  msg ← format "Logging in {}" [PStr username];
  secho msg (Some "yellow");;
  config_load;;
  config_update_key "username" (PStr username);;
  config_update_key "mining_auth_pubkey" (PStr machine_auth_pubkey_b64);;
  config_save.

(** The [while] loop of [_login], lines 147-151: the loop variable is
    [username_index]; [n] is [len(usernames)].  The fuel bounds the number
    of iterations; [_login] gives it one more than the answers left to read,
    which the loop cannot use up. *)
Definition index_rejected (n : Z) (username_index : Z) : bool :=
  Z.leb username_index 0 || Z.gtb username_index n.

Definition prompt_index_body (n : Z) (_ : Z) : M Z :=
  username_index ← prompt_int (login_prompt UxString);
  (if index_rejected n username_index then
     msg ← format (login_prompt_invalid_user UxString) [PInt 1; PInt n];
     secho msg None
   else ret tt);;
  ret username_index.

Definition prompt_index_loop (fuel : nat) (n : Z) : M Z :=
  while_ fuel (index_rejected n) (prompt_index_body n) (-1).

(** [_login], lines 138-160: the username to log in as, or [None] where the
    function returns at line 160. *)
Definition _login_resolve_username (usernames : list string)
    (user : option string) : M (option string) :=
  match user with
  | None =>
      (* interactively select the username *)
      secho (registered_usernames_title UxString) None;;
      for_each usernames
        (fun user counter =>
           msg ← format "{}- {}" [PInt counter; PStr user];
           secho msg None;;
           ret (counter + 1))
        1;;
      w ← get_world;
      username_index ←
        prompt_index_loop (S (length (w_int_answers w)))
          (Z.of_nat (length usernames));
      username ← py_index usernames (username_index - 1);
      ret (Some username)
  | Some user =>
      (* log in with provided username *)
      if bool_decide (user ∈ usernames) then ret (Some user)
      else
        msg ← format (login_prompt_user_does_not_exist UxString) [PStr user];
        secho msg None;;
        ret None
  end.

(** [_login], lines 127-163: what follows once the machine auth is known. *)
Definition _login_with_machine_auth (machine_auth : MachineAuth)
    (user : option string) : M unit :=
  effect (EvRestClient TWO1_HOST (Some machine_auth) None);;
  (* get a list of all usernames for device_id/wallet_pk pair *)
  usernames ← account_info;
  if Nat.eqb (length usernames) 0 then
    create_wallet_and_account
  else
    username ← _login_resolve_username usernames user;
    match username with
    | Some username =>
        (* save the selection in the config file *)
        save_config machine_auth username
    | None => ret tt
    end.

Definition _login (user : option string) : M unit :=
  current ← getattr_config "username";
  (if truthy current then
     msg ← format "Currently logged in as: {}" [current];
     secho msg (Some "blue")
   else ret tt);;
  (* get machine auth *)
  w ← get_world;
  match cfg_machine_auth (w_config w) with
  | Some machine_auth => _login_with_machine_auth machine_auth user
  | None =>
      effect (EvProvider TWO1_PROVIDER_HOST);;
      let wallet_path := DEFAULT_WALLET_PATH in
      present ← check_wallet_file wallet_path;
      if negb present then create_wallet_and_account
      else
        machine_auth ← open_wallet wallet_path;
        _login_with_machine_auth machine_auth user
  end.

(** Returns [None] after sending the user to account creation. *)
Definition get_machine_auth : M (option MachineAuth) :=
  w ← get_world;
  match cfg_machine_auth (w_config w) with
  | Some machine_auth => ret (Some machine_auth)
  | None =>
      effect (EvProvider TWO1_PROVIDER_HOST);;
      let wallet_path := DEFAULT_WALLET_PATH in
      present ← check_wallet_file wallet_path;
      if negb present then
        create_wallet_and_account;;
        ret None
      else
        machine_auth ← open_wallet wallet_path;
        ret (Some machine_auth)
  end.

Definition _set_password (user : option string) : M unit :=
  try_except
    (has ← hasattr_config "username";
     if negb has then secho (no_account_found UxString) None
     else
       username ← getattr_config "username";
       password ← get_password username;
       machine_auth ← get_machine_auth;
       username' ← getattr_config "username";
       effect (EvRestClient TWO1_HOST machine_auth (Some username'));;
       update_password password)
    (fun e =>
       match e with
       | Abort => Some (ret tt)
       | _ => None
       end).

Definition get_username_interactive : M string :=
  prompt_str (login_username UxString) false.

Definition get_password_interactive : M string :=
  prompt_str (login_password UxString) true.

Definition login_with_username_password (username password : string)
    : M unit :=
  print "-----";;
  print username;;
  print password.

(** [_switch_user] is bound nowhere in the module: evaluating the name
    raises [NameError] before any argument is looked at. *)
Definition login (accounts : bool) (switchuser : option string)
    (setpassword : bool) (username password : option string) : M unit :=
  if setpassword then _set_password switchuser
  else if truthy (opt_val switchuser) || accounts then
    raise (NameError "_switch_user")
  else
    username ←
      (match username with
       | Some u => if truthy (PStr u) then ret u else get_username_interactive
       | None => get_username_interactive
       end);
    password ←
      (match password with
       | Some p => if truthy (PStr p) then ret p else get_password_interactive
       | None => get_password_interactive
       end);
    login_with_username_password username password.

(** * Properties *)

(* From here on [++] is list append; strings are joined with [+:+]. *)
Local Close Scope string_scope.

(** ** Running the monad *)

Lemma append_empty_r (s : string) : s +:+ "" = s.
Proof.
  induction s as [| c s IH]; [done |].
  change (String c (s +:+ "") = String c s). by rewrite IH.
Qed.

Lemma log_log es1 es2 w : log es2 (log es1 w) = log (es1 ++ es2) w.
Proof. unfold log; cbn [w_trace]. by rewrite app_assoc. Qed.

Lemma log_nil w : log [] w = w.
Proof. destruct w; unfold log; cbn [w_trace]. by rewrite app_nil_r. Qed.

Lemma log_with_int_answers es q w :
  log es (with_int_answers q w) = with_int_answers q (log es w).
Proof. reflexivity. Qed.

Lemma bind_run {A B} (m : M A) (k : A → M B) w :
  (m ≫= k) w =
  match m w with
  | (Ret a, w') => k a w'
  | (Raise e, w') => (Raise e, w')
  | (OutOfFuel, w') => (OutOfFuel, w')
  end.
Proof. reflexivity. Qed.

Lemma bind_Ret {A B} (m : M A) (k : A → M B) w a w' :
  m w = (Ret a, w') → (m ≫= k) w = k a w'.
Proof. intros H. by rewrite bind_run, H. Qed.

Lemma bind_Raise {A B} (m : M A) (k : A → M B) w e w' :
  m w = (Raise e, w') → (m ≫= k) w = (Raise e, w').
Proof. intros H. by rewrite bind_run, H. Qed.

Lemma try_except_Ret {A} (body : M A) handler w a w' :
  body w = (Ret a, w') → try_except body handler w = (Ret a, w').
Proof. intros H. unfold try_except. by rewrite H. Qed.

Lemma try_except_Raise {A} (body : M A) handler w e w' :
  body w = (Raise e, w') →
  try_except body handler w =
  match handler e with
  | Some h => h w'
  | None => (Raise e, w')
  end.
Proof. intros H. unfold try_except. by rewrite H. Qed.

(** Outside calls when no interrupt is pending. *)

Lemma effect_run e w :
  w_interrupt w = None → effect e w = (Ret tt, log [e] w).
Proof. intros H. unfold effect. by rewrite H. Qed.

Lemma effect_interrupted e w :
  w_interrupt w = Some O → effect e w = (Raise KeyboardInterrupt, w).
Proof. intros H. unfold effect. by rewrite H. Qed.

Lemma effect_countdown e w k :
  w_interrupt w = Some (S k) →
  effect e w = (Ret tt, log [e] (with_interrupt (Some k) w)).
Proof. intros H. unfold effect. by rewrite H. Qed.

(** Simplify the projections of a world without touching what they hold. *)
Ltac wsimpl :=
  cbn [log with_config with_store with_int_answers with_str_answers
       with_interrupt w_env w_config w_store w_trace w_int_answers
       w_str_answers w_interrupt cfg_machine_auth cfg_view fst snd].

Tactic Notation "wsimpl" "in" hyp(H) :=
  cbn [log with_config with_store with_int_answers with_str_answers
       with_interrupt w_env w_config w_store w_trace w_int_answers
       w_str_answers w_interrupt cfg_machine_auth cfg_view fst snd] in H.

(** Compare two worlds over [w] field by field, traces up to
    associativity. *)
Ltac world_eq w :=
  destruct w;
  cbv [log with_config with_store with_int_answers with_str_answers
       with_interrupt w_env w_config w_store w_trace w_int_answers
       w_str_answers w_interrupt cfg_machine_auth cfg_view];
  rewrite <- ?app_assoc; cbn [app]; reflexivity.

Create HintDb run discriminated.

#[local] Hint Resolve effect_run : run.
#[local] Hint Extern 1 (w_interrupt _ = _) => wsimpl; eassumption : run.
#[local] Hint Extern 1 (_ !! _ = Some _) => wsimpl; eassumption : run.
#[local] Hint Extern 1 (w_int_answers _ = _) => wsimpl; eassumption : run.
#[local] Hint Extern 1 (w_str_answers _ = _) => wsimpl; eassumption : run.
#[local] Hint Extern 1 (pyformat _ _ = Some _) => eassumption : run.

(** Merge nested [log]s and compare the traces up to associativity. *)
Ltac trace_eq :=
  rewrite ?log_log, <- ?app_assoc; cbn [app]; try reflexivity.

(** Run the first call of a sequence that returns normally. *)
Ltac run_solve :=
  unfold secho, print;
  first [ solve [eauto with run nocore]
        | erewrite bind_Ret by run_solve; run_solve ].

Ltac mstep := erewrite bind_Ret by run_solve.

Lemma get_world_run w : get_world w = (Ret w, w).
Proof. reflexivity. Qed.

Lemma ret_run {A} (a : A) w : ret a w = (Ret a, w).
Proof. reflexivity. Qed.

#[local] Hint Resolve get_world_run ret_run : run.

Lemma format_run tmpl args s w :
  pyformat tmpl args = Some s → format tmpl args w = (Ret s, w).
Proof. intros H. unfold format. by rewrite H. Qed.

Lemma format_fails tmpl args w :
  pyformat tmpl args = None → format tmpl args w = (Raise FormatError, w).
Proof. intros H. unfold format. by rewrite H. Qed.

Lemma format_logging_in u :
  pyformat "Logging in {}" [PStr u] = Some ("Logging in " +:+ u).
Proof. cbn. by rewrite append_empty_r. Qed.

Lemma format_currently v :
  pyformat "Currently logged in as: {}" [v]
  = Some ("Currently logged in as: " +:+ py_str v).
Proof. cbn -[py_str]. by rewrite append_empty_r. Qed.

Lemma format_numbered c u :
  pyformat "{}- {}" [PInt c; PStr u] = Some (pretty c +:+ "- " +:+ u).
Proof. cbn -[pretty]. by rewrite append_empty_r. Qed.

#[local] Hint Resolve format_run format_logging_in format_currently
  format_numbered : run.

Lemma getattr_config_run name v w :
  cfg_view (w_config w) !! name = Some v →
  getattr_config name w = (Ret v, w).
Proof. intros H. unfold getattr_config, get_world, mbind, M_bind, bind. by rewrite H. Qed.

Lemma getattr_config_missing name w :
  cfg_view (w_config w) !! name = None →
  getattr_config name w = (Raise (AttributeError name), w).
Proof. intros H. unfold getattr_config, get_world, mbind, M_bind, bind. by rewrite H. Qed.

Lemma config_load_run w :
  w_interrupt w = None →
  config_load w
  = (Ret tt,
     with_config {| cfg_machine_auth := cfg_machine_auth (w_config w);
                    cfg_view := w_store w |} (log [EvConfigLoad] w)).
Proof. intros H. unfold config_load. by mstep. Qed.

Lemma config_update_key_run key value w :
  w_interrupt w = None →
  config_update_key key value w
  = (Ret tt,
     with_config {| cfg_machine_auth := cfg_machine_auth (w_config w);
                    cfg_view := <[key := value]> (cfg_view (w_config w)) |}
       (log [EvConfigUpdateKey key value] w)).
Proof. intros H. unfold config_update_key. by mstep. Qed.

Lemma config_save_run w :
  w_interrupt w = None →
  config_save w
  = (Ret tt, with_store (cfg_view (w_config w)) (log [EvConfigSave] w)).
Proof. intros H. unfold config_save. by mstep. Qed.

Lemma check_wallet_file_run path w :
  w_interrupt w = None →
  check_wallet_file path w
  = (Ret (wallet_file_present (w_env w)), log [EvCheckWalletFile path] w).
Proof. intros H. unfold check_wallet_file. by mstep. Qed.

Lemma open_wallet_run path w :
  w_interrupt w = None →
  open_wallet path w
  = (Ret (wallet_machine_auth (w_env w)), log [EvWallet path] w).
Proof. intros H. unfold open_wallet. by mstep. Qed.

Lemma account_info_run usernames w :
  w_interrupt w = None →
  account_info_usernames (w_env w) = inr usernames →
  account_info w = (Ret usernames, log [EvAccountInfo] w).
Proof.
  intros H Hu. unfold account_info. mstep.
  unfold get_world, mbind, M_bind, bind. wsimpl. by rewrite Hu.
Qed.

Lemma prompt_int_run text z q w :
  w_interrupt w = None →
  w_int_answers w = Some z :: q →
  prompt_int text w
  = (Ret z, with_int_answers q (log [EvPrompt text false true] w)).
Proof.
  intros H Hq. unfold prompt_int. mstep.
  unfold get_world, mbind, M_bind, bind. wsimpl. by rewrite Hq.
Qed.

Lemma get_password_run username s q w :
  w_interrupt w = None →
  w_str_answers w = Some s :: q →
  get_password username w
  = (Ret s, with_str_answers q (log [EvGetPassword username] w)).
Proof.
  intros H Hq. unfold get_password. mstep.
  unfold next_str_answer, get_world, mbind, M_bind, bind. wsimpl. by rewrite Hq.
Qed.

#[local] Hint Resolve getattr_config_run config_load_run config_update_key_run
  config_save_run check_wallet_file_run open_wallet_run account_info_run
  prompt_int_run get_password_run : run.

(** ** Reading a trace *)

Definition is_prompt (e : event) : bool :=
  match e with
  | EvPrompt _ _ _ | EvGetPassword _ => true
  | _ => false
  end.

Definition is_config_call (e : event) : bool :=
  match e with
  | EvConfigLoad | EvConfigUpdateKey _ _ | EvConfigSave => true
  | _ => false
  end.

Definition is_account_service (e : event) : bool :=
  match e with
  | EvRestClient _ _ _ | EvAccountInfo | EvUpdatePassword _ => true
  | _ => false
  end.

Definition is_machine_auth (e : event) : bool :=
  match e with
  | EvProvider _ | EvCheckWalletFile _ | EvWallet _ => true
  | _ => false
  end.

Definition is_account_creation (e : event) : bool :=
  match e with
  | EvCheckSetup => true
  | _ => false
  end.

Definition count_events (p : event → bool) (tr : list event) : nat :=
  length (filter (λ e, p e = true) tr).

(** The events a run added to the trace it started from. *)
Definition events_since (w w' : World) : list event :=
  drop (length (w_trace w)) (w_trace w').

Lemma events_since_app es w w' :
  w_trace w' = w_trace w ++ es → events_since w w' = es.
Proof. intros H. unfold events_since. by rewrite H, drop_app_length. Qed.

Lemma events_since_log es w : events_since w (log es w) = es.
Proof. by apply events_since_app. Qed.

(** ** The session config writer, in the spec's words *)

(** The config after [bindSession]: both keys set on top of what the file
    held. *)
Definition session_bound (machine_auth : MachineAuth) (username : string)
    (store : gmap string pyval) : gmap string pyval :=
  <["mining_auth_pubkey" :=
      PStr (b64encode (compressed_bytes (public_key machine_auth)))]>
    (<["username" := PStr username]> store).

(** The calls [save_config] makes, in order. *)
Definition save_config_events (machine_auth : MachineAuth) (username : string)
    : list event :=
  [ EvSecho ("Logging in " +:+ username) (Some "yellow");
    EvConfigLoad;
    EvConfigUpdateKey "username" (PStr username);
    EvConfigUpdateKey "mining_auth_pubkey"
      (PStr (b64encode (compressed_bytes (public_key machine_auth))));
    EvConfigSave ].

Definition after_save_config (machine_auth : MachineAuth) (username : string)
    (w : World) : World :=
  with_store (session_bound machine_auth username (w_store w))
    (with_config
       {| cfg_machine_auth := cfg_machine_auth (w_config w);
          cfg_view := session_bound machine_auth username (w_store w) |}
       (log (save_config_events machine_auth username) w)).

(** What [create_wallet_and_account] turns the outcome of the delegated
    routine into. *)
Definition creation_result (ux : UxStringT) (outcome : option exn)
    : result unit :=
  match outcome with
  | None => Ret tt
  | Some DataProviderUnavailableError =>
      Raise (TwoOneError (Error_connection_cli ux))
  | Some DataProviderError => Raise (TwoOneError (Error_server_err ux))
  | Some UnloggedException => Raise (SystemExit 1)
  | Some e => Raise e
  end.

Lemma session_bound_idem ma u store :
  session_bound ma u (session_bound ma u store) = session_bound ma u store.
Proof.
  unfold session_bound. apply map_eq. intros k.
  rewrite !lookup_insert. repeat case_decide; done.
Qed.

Lemma save_config_run ma u w :
  w_interrupt w = None →
  save_config ma u w = (Ret tt, after_save_config ma u w).
Proof.
  intros H. unfold save_config. do 5 mstep.
  rewrite config_save_run by done.
  unfold after_save_config, save_config_events, session_bound. world_eq w.
Qed.

Lemma create_wallet_and_account_run w :
  w_interrupt w = None →
  create_wallet_and_account w
  = (creation_result UxString (setup_outcome (w_env w)),
     log [EvNewConfig; EvCheckSetup] w).
Proof.
  intros H. unfold create_wallet_and_account, check_setup_twentyone_account.
  destruct (setup_outcome (w_env w)) as [e |] eqn:Ho.
  - erewrite try_except_Raise; cycle 1.
    { do 2 mstep. unfold get_world, mbind, M_bind, bind. wsimpl. rewrite Ho.
      unfold raise. rewrite log_log. reflexivity. }
    destruct e; reflexivity.
  - erewrite try_except_Ret; [reflexivity |].
    do 2 mstep. unfold get_world, mbind, M_bind, bind. wsimpl. rewrite Ho.
    unfold ret. by rewrite log_log.
Qed.

(** ** The session config writer *)

(** C5: [save_config] reloads the config, sets [username] and
    [mining_auth_pubkey] (the base64 of the compressed public key), and saves
    once, in that order; when it returns, the file holds both keys.  An
    interrupt delivered in place of any of its calls up to and including the
    save leaves the file as it was; one that is due later does not affect
    it. *)
Theorem save_config_binds_both_fields
    (w : World) (machine_auth : MachineAuth) (username : string) :
  let run := save_config machine_auth username w in
  let pubkey_b64 :=
    PStr (b64encode (compressed_bytes (public_key machine_auth))) in
  (w_interrupt w = None →
   fst run = Ret tt
   ∧ events_since w (snd run)
     = [ EvSecho ("Logging in " +:+ username) (Some "yellow");
         EvConfigLoad;
         EvConfigUpdateKey "username" (PStr username);
         EvConfigUpdateKey "mining_auth_pubkey" pubkey_b64;
         EvConfigSave ]
   ∧ w_store (snd run)
     = <["mining_auth_pubkey" := pubkey_b64]>
         (<["username" := PStr username]> (w_store w))
   ∧ w_store (snd run) !! "username" = Some (PStr username)
   ∧ w_store (snd run) !! "mining_auth_pubkey" = Some pubkey_b64
   ∧ cfg_view (w_config (snd run)) = w_store (snd run))
  ∧ (∀ k, w_interrupt w = Some k → (k < 5)%nat →
     fst run = Raise KeyboardInterrupt ∧ w_store (snd run) = w_store w)
  ∧ (∀ k, w_interrupt w = Some k → (5 ≤ k)%nat →
     fst run = Ret tt
     ∧ w_store (snd run)
       = <["mining_auth_pubkey" := pubkey_b64]>
           (<["username" := PStr username]> (w_store w))).
Proof.
  intros run pubkey_b64. subst run pubkey_b64. repeat split.
  1-6: rewrite save_config_run by done; unfold after_save_config; wsimpl.
  - reflexivity.
  - by apply events_since_app.
  - reflexivity.
  - unfold session_bound. by rewrite lookup_insert_ne, lookup_insert_eq.
  - unfold session_bound. by rewrite lookup_insert_eq.
  - reflexivity.
  - destruct w as [env cfg store tr ia sa intr]; wsimpl in H; subst intr.
    do 5 (destruct k as [| k]; [reflexivity |]). lia.
  - destruct w as [env cfg store tr ia sa intr]; wsimpl in H; subst intr.
    do 5 (destruct k as [| k]; [reflexivity |]). lia.
  - destruct w as [env cfg store tr ia sa intr]; wsimpl in H; subst intr.
    do 5 (destruct k as [| k]; [lia |]). reflexivity.
  - destruct w as [env cfg store tr ia sa intr]; wsimpl in H; subst intr.
    do 5 (destruct k as [| k]; [lia |]). reflexivity.
Qed.

(** C6: [save_config] is idempotent: a second call with the same identity
    and username returns as the first did and leaves the file, and the
    config object, as the first call left them. *)
Theorem save_config_idempotent
    (w : World) (machine_auth : MachineAuth) (username : string) :
  w_interrupt w = None →
  let w1 := snd (save_config machine_auth username w) in
  let w2 := snd (save_config machine_auth username w1) in
  fst (save_config machine_auth username w) = Ret tt
  ∧ fst (save_config machine_auth username w1) = Ret tt
  ∧ w_store w2 = w_store w1
  ∧ w_config w2 = w_config w1.
Proof.
  intros H w1 w2. subst w2 w1.
  rewrite (save_config_run _ _ w) by done. wsimpl.
  rewrite save_config_run by (unfold after_save_config; wsimpl; done).
  unfold after_save_config. wsimpl.
  by rewrite session_bound_idem.
Qed.

(** ** Account creation *)

(** C8: [create_wallet_and_account] returns normally when the delegated
    routine does; it turns [DataProviderUnavailableError] into a
    [TwoOneError] with the connectivity message, [DataProviderError] into a
    [TwoOneError] with the server-error message, and [UnloggedException] into
    an exit with status 1; any other exception passes through unchanged.  The
    exit differs from both errors, and the two errors differ when their
    messages do. *)
Theorem create_wallet_and_account_outcomes (w : World) :
  w_interrupt w = None →
  let outcome := setup_outcome (w_env w) in
  let result := fst (create_wallet_and_account w) in
  (outcome = None → result = Ret tt)
  ∧ (outcome = Some DataProviderUnavailableError →
     result = Raise (TwoOneError (Error_connection_cli UxString)))
  ∧ (outcome = Some DataProviderError →
     result = Raise (TwoOneError (Error_server_err UxString)))
  ∧ (outcome = Some UnloggedException → result = Raise (SystemExit 1))
  ∧ (∀ e, outcome = Some e →
     e ≠ DataProviderUnavailableError → e ≠ DataProviderError →
     e ≠ UnloggedException → result = Raise e)
  ∧ (∀ msg, @Raise unit (SystemExit 1) ≠ Raise (TwoOneError msg))
  ∧ (Error_connection_cli UxString ≠ Error_server_err UxString →
     @Raise unit (TwoOneError (Error_connection_cli UxString))
     ≠ Raise (TwoOneError (Error_server_err UxString))).
Proof.
  intros H outcome result. subst outcome result.
  rewrite create_wallet_and_account_run by done. cbn [fst].
  repeat split.
  1-4: by intros ->.
  - intros e -> ? ? ?. by destruct e.
  - discriminate.
  - congruence.
Qed.

(** ** The dispatcher *)

(** C9, as the code has it: when set-password is not requested and the
    switch-user option has a non-empty value or the accounts flag is set,
    [login] raises [NameError] for [_switch_user] before any outside call:
    the world, trace included, is as it was, so [_login] is not reached. *)
Theorem login_switch_user_undefined
    (w : World) (accounts : bool) (switchuser username password : option string) :
  truthy (opt_val switchuser) = true ∨ accounts = true →
  login accounts switchuser false username password w
  = (Raise (NameError "_switch_user"), w).
Proof.
  intros H. unfold login.
  assert (truthy (opt_val switchuser) || accounts = true) as ->.
  { destruct H as [-> | ->]; [done | apply orb_true_r]. }
  reflexivity.
Qed.

(** C10: [login_with_username_password] prints the separator, the username
    and the password, and does nothing else: no call to the account service,
    no machine auth, and the config object and file stay as they were.  The
    dispatcher reaches it with the given credentials when no other mode is
    requested. *)
Theorem login_with_username_password_only_prints
    (w : World) (username password : string) :
  w_interrupt w = None →
  let run := login_with_username_password username password w in
  run = (Ret tt, log [EvPrint "-----"; EvPrint username; EvPrint password] w)
  ∧ events_since w (snd run)
    = [EvPrint "-----"; EvPrint username; EvPrint password]
  ∧ count_events is_account_service (events_since w (snd run)) = O
  ∧ count_events is_machine_auth (events_since w (snd run)) = O
  ∧ count_events is_config_call (events_since w (snd run)) = O
  ∧ w_config (snd run) = w_config w
  ∧ w_store (snd run) = w_store w
  ∧ (∀ switchuser,
       truthy (opt_val switchuser) = false →
       truthy (PStr username) = true → truthy (PStr password) = true →
       login false switchuser false (Some username) (Some password) w = run).
Proof.
  intros H run.
  assert (run = (Ret tt,
                 log [EvPrint "-----"; EvPrint username; EvPrint password] w))
    as Hrun.
  { subst run. unfold login_with_username_password.
    do 2 mstep. unfold print. rewrite effect_run by done.
    by rewrite !log_log. }
  rewrite Hrun. wsimpl. rewrite events_since_log.
  repeat split.
  intros switchuser Hs Hu Hp. unfold login. rewrite Hs, Hu, Hp. cbn [orb].
  by rewrite <- Hrun.
Qed.

(** ** The identity resolver *)

(** The machine auth [_login] works with: the one cached on the config
    object, else the one of the wallet file when there is a wallet file. *)
Definition resolved_machine_auth (w : World) : option MachineAuth :=
  match cfg_machine_auth (w_config w) with
  | Some machine_auth => Some machine_auth
  | None =>
      if wallet_file_present (w_env w) then Some (wallet_machine_auth (w_env w))
      else None
  end.

(** The calls of [_login] up to and including the request for the usernames,
    lines 110-131. *)
Definition login_preamble (w : World) (current : pyval)
    (machine_auth : MachineAuth) : list event :=
  (if truthy current then
     [EvSecho ("Currently logged in as: " +:+ py_str current) (Some "blue")]
   else [])
  ++ match cfg_machine_auth (w_config w) with
     | Some _ => []
     | None =>
         [ EvProvider TWO1_PROVIDER_HOST;
           EvCheckWalletFile DEFAULT_WALLET_PATH;
           EvWallet DEFAULT_WALLET_PATH ]
     end
  ++ [EvRestClient TWO1_HOST (Some machine_auth) None; EvAccountInfo].

(** The usernames as a numbered list, one line each, counting from
    [counter]. *)
Fixpoint numbered_from (counter : Z) (usernames : list string) : list event :=
  match usernames with
  | [] => []
  | user :: usernames' =>
      EvSecho (pretty counter +:+ "- " +:+ user) None
      :: numbered_from (counter + 1) usernames'
  end.

(** One prompt and one bounds message for every rejected index. *)
Definition rejection_events (bounds_msg : string) (rejected : list Z)
    : list event :=
  flat_map
    (λ _, [EvPrompt (login_prompt UxString) false true;
           EvSecho bounds_msg None])
    rejected.

Lemma numbered_from_lookup usernames counter k :
  numbered_from counter usernames !! k
  = (λ user, EvSecho (pretty (counter + Z.of_nat k) +:+ "- " +:+ user) None)
      <$> usernames !! k.
Proof.
  revert counter k. induction usernames as [| u us IH]; intros counter k.
  - done.
  - destruct k as [| k]; simpl.
    + by rewrite Z.add_0_r.
    + rewrite IH. by replace (counter + 1 + Z.of_nat k) with (counter + Z.pos (Pos.of_succ_nat k)) by lia.
Qed.

Lemma print_numbered_run usernames counter w :
  w_interrupt w = None →
  for_each usernames
    (fun user counter =>
       msg ← format "{}- {}" [PInt counter; PStr user];
       secho msg None;;
       ret (counter + 1))
    counter w
  = (Ret (counter + Z.of_nat (length usernames)),
     log (numbered_from counter usernames) w).
Proof.
  revert counter w. induction usernames as [| u us IH]; intros counter w H.
  - simpl. unfold ret. by rewrite Z.add_0_r, log_nil.
  - cbn [for_each]. rewrite bind_run.
    do 2 mstep. unfold ret at 1. rewrite IH by done.
    rewrite log_log. simpl. do 2 f_equal. lia.
Qed.

Lemma index_rejected_spec n i :
  index_rejected n i = true ↔ i ≤ 0 ∨ i > n.
Proof. unfold index_rejected. rewrite orb_true_iff. lia. Qed.

Lemma index_accepted_spec n i :
  index_rejected n i = false ↔ 1 ≤ i ≤ n.
Proof. unfold index_rejected. rewrite orb_false_iff. lia. Qed.

(** The loop on a run of rejected answers followed by an accepted one. *)
Lemma prompt_index_while_run n bounds_msg i rest rejected :
  ∀ fuel s w,
    index_rejected n s = true →
    w_interrupt w = None →
    w_int_answers w = map Some rejected ++ Some i :: rest →
    Forall (λ r, index_rejected n r = true) rejected →
    index_rejected n i = false →
    rejected = []
    ∨ pyformat (login_prompt_invalid_user UxString) [PInt 1; PInt n]
      = Some bounds_msg →
    (length rejected < fuel)%nat →
    while_ fuel (index_rejected n) (prompt_index_body n) s w
    = (Ret i,
       with_int_answers rest
         (log (rejection_events bounds_msg rejected
               ++ [EvPrompt (login_prompt UxString) false true]) w)).
Proof.
  induction rejected as [| r rs IH];
    intros fuel s w Hs Hi Hq Hrej Hacc Hmsg Hfuel;
    (destruct fuel as [| fuel]; [simpl in Hfuel; lia |]);
    cbn [while_]; rewrite Hs; rewrite bind_run; unfold prompt_index_body;
    cbn [map app] in Hq.
  - mstep. rewrite Hacc. mstep. unfold ret at 1.
    destruct fuel; cbn [while_]; by rewrite Hacc.
  - apply Forall_cons in Hrej as [Hr Hrs].
    destruct Hmsg as [? | Hmsg]; [done |].
    mstep. rewrite Hr. mstep. unfold ret at 1.
    erewrite IH; [| done | done | reflexivity | done | done | by right
                  | simpl in Hfuel; lia].
    unfold rejection_events. cbn [flat_map]. world_eq w.
Qed.

(** Each turn of the loop either raises or reads one answer. *)
Lemma prompt_index_body_consumes n s w :
  match prompt_index_body n s w with
  | (Ret _, w') => (length (w_int_answers w') < length (w_int_answers w))%nat
  | (Raise _, _) => True
  | (OutOfFuel, _) => False
  end.
Proof.
  unfold prompt_index_body, prompt_int, format, secho, effect.
  unfold get_world, set_world, mbind, M_bind, bind, ret, raise.
  destruct w as [env cfg store tr ia sa intr]. wsimpl.
  destruct intr as [[| k] |]; wsimpl; [done | |];
    (destruct ia as [| [z |] q]; wsimpl; [done | | done]);
    (destruct (index_rejected n z);
       [destruct (pyformat _ _); [| done] |]); wsimpl;
    try (cbn [length]; lia).
  destruct k; wsimpl; [done | cbn [length]; lia].
Qed.

(** The fuel [_login] gives the loop is never used up, whatever is typed. *)
Lemma prompt_index_while_total n :
  ∀ fuel s w,
    (length (w_int_answers w) < fuel)%nat →
    fst (while_ fuel (index_rejected n) (prompt_index_body n) s w) ≠ OutOfFuel.
Proof.
  induction fuel as [| fuel IH]; intros s w Hfuel; [lia |].
  cbn [while_]. destruct (index_rejected n s); [| done].
  rewrite bind_run.
  pose proof (prompt_index_body_consumes n s w) as Hbody.
  destruct (prompt_index_body n s w) as [[s' | e |] w']; [| done | done].
  apply IH. lia.
Qed.

#[local] Hint Resolve print_numbered_run : run.

Lemma py_index_run {A} (l : list A) i w :
  1 ≤ i ≤ Z.of_nat (length l) →
  ∃ x, l !! Z.to_nat (i - 1) = Some x ∧ py_index l (i - 1) w = (Ret x, w).
Proof.
  intros Hi. destruct (lookup_lt_is_Some_2 l (Z.to_nat (i - 1))) as [x Hx];
    [lia |].
  exists x. split; [done |]. unfold py_index.
  destruct (Z.ltb_spec (i - 1) 0) as [? | _]; [lia |].
  destruct (Z.ltb_spec (i - 1) 0) as [? | _]; [lia |].
  by rewrite Hx.
Qed.

(** [_login] up to the point where it has the usernames. *)
Lemma login_preamble_run w user current machine_auth usernames :
  w_interrupt w = None →
  cfg_view (w_config w) !! "username" = Some current →
  resolved_machine_auth w = Some machine_auth →
  account_info_usernames (w_env w) = inr usernames →
  _login user w
  = (if Nat.eqb (length usernames) 0 then create_wallet_and_account
     else
       username ← _login_resolve_username usernames user;
       match username with
       | Some username => save_config machine_auth username
       | None => ret tt
       end)
      (log (login_preamble w current machine_auth) w).
Proof.
  intros Hi Hc Hm Ha. unfold _login, login_preamble. mstep.
  assert (∀ (k : M unit),
    ((if truthy current then
        msg ← format "Currently logged in as: {}" [current];
        secho msg (Some "blue")
      else ret tt);; k) w
    = k (log (if truthy current then
                [EvSecho ("Currently logged in as: " +:+ py_str current)
                   (Some "blue")]
              else []) w)) as ->.
  { intros k. destruct (truthy current).
    - by mstep.
    - by rewrite log_nil. }
  mstep. wsimpl. unfold resolved_machine_auth in Hm.
  destruct (cfg_machine_auth (w_config w)) as [ma |] eqn:Hcached.
  - injection Hm as ->. unfold _login_with_machine_auth.
    do 2 mstep. trace_eq.
  - destruct (wallet_file_present (w_env w)) eqn:Hfile; [| done].
    injection Hm as <-. do 2 mstep. wsimpl. rewrite Hfile. cbn [negb].
    mstep. unfold _login_with_machine_auth. do 2 mstep.
    trace_eq.
Qed.

(** [_login] when there is neither a cached machine auth nor a wallet
    file. *)
Lemma login_without_wallet_run w user current :
  w_interrupt w = None →
  cfg_view (w_config w) !! "username" = Some current →
  resolved_machine_auth w = None →
  _login user w
  = (creation_result UxString (setup_outcome (w_env w)),
     log ((if truthy current then
             [EvSecho ("Currently logged in as: " +:+ py_str current)
                (Some "blue")]
           else [])
          ++ [ EvProvider TWO1_PROVIDER_HOST;
               EvCheckWalletFile DEFAULT_WALLET_PATH;
               EvNewConfig; EvCheckSetup ]) w).
Proof.
  intros Hi Hc Hm. unfold _login. mstep.
  unfold resolved_machine_auth in Hm.
  destruct (cfg_machine_auth (w_config w)) eqn:Hcached; [done |].
  destruct (wallet_file_present (w_env w)) eqn:Hfile; [done |].
  destruct (truthy current).
  - mstep. mstep. wsimpl. rewrite Hcached. do 2 mstep. wsimpl.
    rewrite Hfile. cbn [negb].
    rewrite create_wallet_and_account_run by (wsimpl; done). wsimpl.
    trace_eq.
  - do 2 mstep. wsimpl. rewrite Hcached. do 2 mstep. wsimpl.
    rewrite Hfile. cbn [negb].
    rewrite create_wallet_and_account_run by (wsimpl; done). wsimpl.
    trace_eq.
Qed.

Lemma count_events_preamble p w current machine_auth :
  p (EvSecho ("Currently logged in as: " +:+ py_str current) (Some "blue"))
  = false →
  p (EvProvider TWO1_PROVIDER_HOST) = false →
  p (EvCheckWalletFile DEFAULT_WALLET_PATH) = false →
  p (EvWallet DEFAULT_WALLET_PATH) = false →
  p (EvRestClient TWO1_HOST (Some machine_auth) None) = false →
  p EvAccountInfo = false →
  ∀ es,
    count_events p (login_preamble w current machine_auth ++ es)
    = count_events p es.
Proof.
  intros H1 H2 H3 H4 H5 H6 es. unfold count_events, login_preamble.
  rewrite <- !app_assoc, !filter_app, !length_app.
  destruct (truthy current), (cfg_machine_auth (w_config w)); simpl;
    repeat (rewrite filter_cons_False by congruence); simpl; done.
Qed.

Lemma nonempty_length_eqb {A} (l : list A) :
  l ≠ [] → Nat.eqb (length l) 0 = false.
Proof. by destruct l. Qed.

(** The interactive branch of [_login_resolve_username]. *)
Lemma resolve_interactive_run w usernames rejected i rest bounds_msg :
  w_interrupt w = None →
  w_int_answers w = map Some rejected ++ Some i :: rest →
  Forall (λ r, r ≤ 0 ∨ r > Z.of_nat (length usernames)) rejected →
  1 ≤ i ≤ Z.of_nat (length usernames) →
  rejected = []
  ∨ pyformat (login_prompt_invalid_user UxString)
      [PInt 1; PInt (Z.of_nat (length usernames))]
    = Some bounds_msg →
  ∃ username,
    usernames !! Z.to_nat (i - 1) = Some username
    ∧ _login_resolve_username usernames None w
      = (Ret (Some username),
         with_int_answers rest
           (log ([EvSecho (registered_usernames_title UxString) None]
                 ++ numbered_from 1 usernames
                 ++ rejection_events bounds_msg rejected
                 ++ [EvPrompt (login_prompt UxString) false true]) w)).
Proof.
  intros Hi Hq Hrej Hacc Hmsg.
  destruct (py_index_run usernames i
              (with_int_answers rest
                 (log ([EvSecho (registered_usernames_title UxString) None]
                       ++ numbered_from 1 usernames
                       ++ rejection_events bounds_msg rejected
                       ++ [EvPrompt (login_prompt UxString) false true]) w))
              Hacc) as (username & Hlookup & Hindex).
  exists username. split; [done |].
  unfold _login_resolve_username. do 3 mstep.
  unfold prompt_index_loop. wsimpl.
  erewrite bind_Ret; cycle 1.
  { eapply (prompt_index_while_run _ bounds_msg i rest rejected).
    - done.
    - wsimpl. done.
    - wsimpl. done.
    - eapply Forall_impl; [done |]. intros r Hr. by apply index_rejected_spec.
    - by apply index_accepted_spec.
    - done.
    - rewrite Hq, length_app, length_map. lia. }
  rewrite !log_log, <- ?app_assoc.
  by rewrite (bind_Ret _ _ _ _ _ Hindex).
Qed.

(** The branch of [_login_resolve_username] with an explicit username. *)
Lemma resolve_explicit_member_run w usernames user :
  user ∈ usernames →
  _login_resolve_username usernames (Some user) w = (Ret (Some user), w).
Proof.
  intros Hin. unfold _login_resolve_username.
  by rewrite bool_decide_eq_true_2.
Qed.

Lemma resolve_explicit_unknown_run w usernames user msg :
  w_interrupt w = None →
  user ∉ usernames →
  pyformat (login_prompt_user_does_not_exist UxString) [PStr user] = Some msg →
  _login_resolve_username usernames (Some user) w
  = (Ret None, log [EvSecho msg None] w).
Proof.
  intros Hi Hin Hmsg. unfold _login_resolve_username.
  rewrite bool_decide_eq_false_2 by done. by do 2 mstep.
Qed.

(** C1: with no explicit username and a non-empty list of usernames,
    [_login] prints the title and the usernames numbered from 1 in the order
    received, then prompts for an index; every answer [r] with [r <= 0] or
    [r > n] gets the bounds message formatted with 1 and [n] and another
    prompt; the first answer [i] with [1 <= i <= n] ends the loop, and
    [_login] goes on to [save_config] with [usernames[i-1]]. *)
Theorem login_interactive_selection
    (w : World) (current : pyval) (machine_auth : MachineAuth)
    (usernames : list string) (rejected : list Z) (i : Z)
    (rest : list (option Z)) (bounds_msg : string) :
  w_interrupt w = None →
  cfg_view (w_config w) !! "username" = Some current →
  resolved_machine_auth w = Some machine_auth →
  account_info_usernames (w_env w) = inr usernames →
  w_int_answers w = map Some rejected ++ Some i :: rest →
  Forall (λ r, r ≤ 0 ∨ r > Z.of_nat (length usernames)) rejected →
  1 ≤ i ≤ Z.of_nat (length usernames) →
  rejected = []
  ∨ pyformat (login_prompt_invalid_user UxString)
      [PInt 1; PInt (Z.of_nat (length usernames))]
    = Some bounds_msg →
  ∃ username,
    usernames !! Z.to_nat (i - 1) = Some username
    ∧ _login None w
      = save_config machine_auth username
          (with_int_answers rest
             (log (login_preamble w current machine_auth
                   ++ [EvSecho (registered_usernames_title UxString) None]
                   ++ numbered_from 1 usernames
                   ++ rejection_events bounds_msg rejected
                   ++ [EvPrompt (login_prompt UxString) false true]) w))
    ∧ (∀ k user,
         usernames !! k = Some user →
         numbered_from 1 usernames !! k
         = Some (EvSecho (pretty (Z.of_nat k + 1) +:+ "- " +:+ user) None)).
Proof.
  intros Hi Hc Hm Ha Hq Hrej Hacc Hmsg.
  destruct (resolve_interactive_run
              (log (login_preamble w current machine_auth) w)
              usernames rejected i rest bounds_msg)
    as (username & Hlookup & Hrun); try done.
  exists username. split; [done |]. split.
  - rewrite (login_preamble_run w None current machine_auth usernames)
      by done.
    rewrite nonempty_length_eqb by (intros ->; cbn [length] in Hacc; lia).
    rewrite (bind_Ret _ _ _ _ _ Hrun). by rewrite log_log.
  - intros k user Hk. rewrite numbered_from_lookup, Hk. cbn [fmap option_fmap option_map].
    by rewrite Z.add_comm.
Qed.

(** C2: with an explicit username that is one of the usernames, [_login]
    goes from the request for the usernames straight to [save_config] with
    that username: no prompt is issued and no answer is read, and the file
    ends up with that username. *)
Theorem login_explicit_username
    (w : World) (current : pyval) (machine_auth : MachineAuth)
    (usernames : list string) (user : string) :
  w_interrupt w = None →
  cfg_view (w_config w) !! "username" = Some current →
  resolved_machine_auth w = Some machine_auth →
  account_info_usernames (w_env w) = inr usernames →
  user ∈ usernames →
  let run := _login (Some user) w in
  run = save_config machine_auth user
          (log (login_preamble w current machine_auth) w)
  ∧ fst run = Ret tt
  ∧ events_since w (snd run)
    = login_preamble w current machine_auth
      ++ save_config_events machine_auth user
  ∧ count_events is_prompt (events_since w (snd run)) = O
  ∧ w_int_answers (snd run) = w_int_answers w
  ∧ w_str_answers (snd run) = w_str_answers w
  ∧ w_store (snd run) !! "username" = Some (PStr user).
Proof.
  intros Hi Hc Hm Ha Hin run.
  assert (run = save_config machine_auth user
                  (log (login_preamble w current machine_auth) w)) as Hrun.
  { subst run.
    rewrite (login_preamble_run w _ current machine_auth usernames) by done.
    rewrite nonempty_length_eqb by (intros ->; by apply not_elem_of_nil in Hin).
    by rewrite (bind_Ret _ _ _ _ _ (resolve_explicit_member_run _ _ _ Hin)). }
  split; [done |]. rewrite Hrun.
  rewrite save_config_run by (wsimpl; done).
  unfold after_save_config. wsimpl.
  assert (events_since w
            (with_store (session_bound machine_auth user (w_store w))
               (with_config
                  {| cfg_machine_auth := cfg_machine_auth (w_config w);
                     cfg_view := session_bound machine_auth user (w_store w) |}
                  (log (save_config_events machine_auth user)
                     (log (login_preamble w current machine_auth) w))))
          = login_preamble w current machine_auth
            ++ save_config_events machine_auth user) as ->.
  { apply events_since_app. wsimpl. by rewrite app_assoc. }
  repeat split.
  - by rewrite count_events_preamble.
  - unfold session_bound. by rewrite lookup_insert_ne, lookup_insert_eq.
Qed.

(** C3, as the code has it: with a non-empty list of usernames and an
    explicit username that is not one of them, [_login] prints the "does not
    exist" message formatted with that username and returns; it makes no
    call on the config object, and the config object and the file are as
    they were. *)
Theorem login_unknown_username
    (w : World) (current : pyval) (machine_auth : MachineAuth)
    (usernames : list string) (user msg : string) :
  w_interrupt w = None →
  cfg_view (w_config w) !! "username" = Some current →
  resolved_machine_auth w = Some machine_auth →
  account_info_usernames (w_env w) = inr usernames →
  usernames ≠ [] →
  user ∉ usernames →
  pyformat (login_prompt_user_does_not_exist UxString) [PStr user] = Some msg →
  let run := _login (Some user) w in
  run = (Ret tt,
         log (login_preamble w current machine_auth ++ [EvSecho msg None]) w)
  ∧ count_events is_config_call (events_since w (snd run)) = O
  ∧ w_config (snd run) = w_config w
  ∧ w_store (snd run) = w_store w.
Proof.
  intros Hi Hc Hm Ha Hne Hin Hmsg run.
  assert (run = (Ret tt,
                 log (login_preamble w current machine_auth
                      ++ [EvSecho msg None]) w)) as Hrun.
  { subst run.
    rewrite (login_preamble_run w _ current machine_auth usernames) by done.
    rewrite nonempty_length_eqb by done.
    erewrite bind_Ret
      by (apply resolve_explicit_unknown_run; [wsimpl| |]; done).
    unfold ret. by rewrite log_log. }
  split; [done |]. rewrite Hrun. wsimpl. rewrite events_since_log.
  repeat split. by rewrite count_events_preamble.
Qed.

(** C4: when the account service reports no usernames, [_login] calls
    [create_wallet_and_account] and ends as that call ends (it returns when
    the delegated routine succeeds): the delegated routine is called once,
    nothing is prompted, no call is made on the config object, and the
    config object is as it was. *)
Theorem login_no_accounts
    (w : World) (current : pyval) (machine_auth : MachineAuth)
    (user : option string) :
  w_interrupt w = None →
  cfg_view (w_config w) !! "username" = Some current →
  resolved_machine_auth w = Some machine_auth →
  account_info_usernames (w_env w) = inr [] →
  let run := _login user w in
  run = create_wallet_and_account
          (log (login_preamble w current machine_auth) w)
  ∧ fst run = creation_result UxString (setup_outcome (w_env w))
  ∧ (setup_outcome (w_env w) = None → fst run = Ret tt)
  ∧ events_since w (snd run)
    = login_preamble w current machine_auth ++ [EvNewConfig; EvCheckSetup]
  ∧ count_events is_account_creation (events_since w (snd run)) = 1%nat
  ∧ count_events is_prompt (events_since w (snd run)) = O
  ∧ count_events is_config_call (events_since w (snd run)) = O
  ∧ w_config (snd run) = w_config w
  ∧ w_int_answers (snd run) = w_int_answers w.
Proof.
  intros Hi Hc Hm Ha run.
  assert (run = create_wallet_and_account
                  (log (login_preamble w current machine_auth) w)) as Hrun.
  { subst run.
    by rewrite (login_preamble_run w _ current machine_auth []). }
  split; [done |]. rewrite Hrun.
  rewrite create_wallet_and_account_run by (wsimpl; done).
  rewrite log_log. wsimpl. rewrite events_since_log.
  repeat split.
  - by intros ->.
  - by rewrite count_events_preamble.
  - by rewrite count_events_preamble.
  - by rewrite count_events_preamble.
Qed.

(** ** Machine auth without a wallet file *)

Lemma hasattr_config_run name v w :
  cfg_view (w_config w) !! name = Some v →
  hasattr_config name w = (Ret true, w).
Proof.
  intros H. unfold hasattr_config, get_world, mbind, M_bind, bind, ret.
  by rewrite H.
Qed.

Lemma update_password_run password w :
  w_interrupt w = None →
  update_password password w
  = (match update_password_outcome (w_env w) with
     | None => Ret tt
     | Some e => Raise e
     end,
     log [EvUpdatePassword password] w).
Proof.
  intros H. unfold update_password. mstep.
  unfold get_world, mbind, M_bind, bind. wsimpl.
  by destruct (update_password_outcome (w_env w)).
Qed.

(** [get_machine_auth] hands back [None] once account creation returns. *)
Lemma get_machine_auth_without_wallet_run w :
  w_interrupt w = None →
  resolved_machine_auth w = None →
  setup_outcome (w_env w) = None →
  get_machine_auth w
  = (Ret None,
     log [ EvProvider TWO1_PROVIDER_HOST;
           EvCheckWalletFile DEFAULT_WALLET_PATH;
           EvNewConfig; EvCheckSetup ] w).
Proof.
  intros Hi Hm Ho. unfold get_machine_auth, resolved_machine_auth in *.
  mstep.
  destruct (cfg_machine_auth (w_config w)); [done |].
  destruct (wallet_file_present (w_env w)) eqn:Hfile; [done |].
  do 2 mstep. wsimpl. rewrite Hfile. cbn [negb].
  erewrite bind_Ret; cycle 1.
  { rewrite create_wallet_and_account_run by (wsimpl; done). wsimpl.
    rewrite Ho. reflexivity. }
  unfold ret. trace_eq.
Qed.

(** C7, where the code departs from it: with no cached machine auth and no
    wallet file, [_login] stops after account creation, but [_set_password]
    does not.  [get_machine_auth] returns [None] to it, and it goes on to
    build the rest client with no machine auth and to send the new password;
    it has asked for that password before looking for the wallet. *)
Theorem set_password_goes_on_without_wallet
    (w : World) (user : option string) (username : pyval) (password : string)
    (rest : list (option string)) :
  w_interrupt w = None →
  cfg_view (w_config w) !! "username" = Some username →
  resolved_machine_auth w = None →
  setup_outcome (w_env w) = None →
  w_str_answers w = Some password :: rest →
  let login_run := _login user w in
  let set_run := _set_password user w in
  fst login_run = Ret tt
  ∧ count_events is_account_service (events_since w (snd login_run)) = O
  ∧ count_events is_config_call (events_since w (snd login_run)) = O
  ∧ events_since w (snd set_run)
    = [ EvGetPassword username;
        EvProvider TWO1_PROVIDER_HOST;
        EvCheckWalletFile DEFAULT_WALLET_PATH;
        EvNewConfig; EvCheckSetup;
        EvRestClient TWO1_HOST None (Some username);
        EvUpdatePassword password ]
  ∧ count_events is_account_service (events_since w (snd set_run)) = 2%nat.
Proof.
  intros Hi Hc Hm Ho Hq login_run set_run.
  assert (events_since w (snd set_run)
          = [ EvGetPassword username;
              EvProvider TWO1_PROVIDER_HOST;
              EvCheckWalletFile DEFAULT_WALLET_PATH;
              EvNewConfig; EvCheckSetup;
              EvRestClient TWO1_HOST None (Some username);
              EvUpdatePassword password ]) as Hset.
  { subst set_run. unfold _set_password.
    set (body := (has ← hasattr_config "username"; _)).
    assert (body w
            = (match update_password_outcome (w_env w) with
               | None => Ret tt
               | Some e => Raise e
               end,
               with_str_answers rest
                 (log [ EvGetPassword username;
                        EvProvider TWO1_PROVIDER_HOST;
                        EvCheckWalletFile DEFAULT_WALLET_PATH;
                        EvNewConfig; EvCheckSetup;
                        EvRestClient TWO1_HOST None (Some username);
                        EvUpdatePassword password ] w))) as Hbody.
    { subst body.
      erewrite bind_Ret by (by eapply hasattr_config_run). cbn [negb].
      do 2 mstep.
      erewrite bind_Ret
        by (apply get_machine_auth_without_wallet_run; wsimpl; done).
      do 2 mstep.
      rewrite update_password_run by (wsimpl; done). wsimpl.
      f_equal. clear. world_eq w. }
    apply events_since_app.
    destruct (update_password_outcome (w_env w)) as [e |].
    - rewrite (try_except_Raise _ _ _ _ _ Hbody). by destruct e.
    - by rewrite (try_except_Ret _ _ _ _ _ Hbody). }
  rewrite Hset. subst login_run.
  rewrite (login_without_wallet_run w user username) by done.
  wsimpl. rewrite Ho, events_since_log.
  repeat split; destruct (truthy username); reflexivity.
Qed.

(** ** What a run can and cannot do, for every world

    The lemmas so far follow one run under given answers.  The ones below
    hold whatever is typed, whatever the outside answers, and wherever an
    interrupt falls. *)

(** [w'] comes after [w]: the same outside, a longer trace whose new events
    all fail [p]; unless one of the new events is a call on the config
    object, the same config object and file; and unless one of them is a
    prompt, the same answers left to read. *)
Definition frame (p : event → bool) (w w' : World) : Prop :=
  w_env w' = w_env w
  ∧ ∃ es, w_trace w' = w_trace w ++ es
          ∧ Forall (λ e, p e = false) es
          ∧ (Forall (λ e, is_config_call e = false) es →
             w_config w' = w_config w ∧ w_store w' = w_store w)
          ∧ (Forall (λ e, is_prompt e = false) es →
             w_int_answers w' = w_int_answers w
             ∧ w_str_answers w' = w_str_answers w).

(** The run of [m] from [w] stays in relation [R], and what it returns
    satisfies [Q]. *)
Definition within {A} (R : World → World → Prop) (Q : A → Prop) (m : M A)
    (w : World) : Prop :=
  R w (snd (m w)) ∧ ∀ a, fst (m w) = Ret a → Q a.

Definition anything {A} : A → Prop := λ _, True.

Lemma frame_refl p w : frame p w w.
Proof.
  split; [done |]. exists []. rewrite app_nil_r. repeat split; constructor.
Qed.

Lemma frame_trans p w1 w2 w3 : frame p w1 w2 → frame p w2 w3 → frame p w1 w3.
Proof.
  intros (He1 & es1 & Ht1 & Hp1 & Hc1 & Ha1) (He2 & es2 & Ht2 & Hp2 & Hc2 & Ha2).
  split; [congruence |]. exists (es1 ++ es2). split; [| split; [| split]].
  - by rewrite Ht2, Ht1, app_assoc.
  - by apply Forall_app.
  - intros [H1 H2]%Forall_app.
    destruct (Hc1 H1) as [? ?], (Hc2 H2) as [? ?]. split; congruence.
  - intros [H1 H2]%Forall_app.
    destruct (Ha1 H1) as [? ?], (Ha2 H2) as [? ?]. split; congruence.
Qed.

Lemma frame_weaken (p q : event → bool) w w' :
  (∀ e, p e = false → q e = false) → frame p w w' → frame q w w'.
Proof.
  intros Hpq (He & es & Ht & Hp & Hc & Ha). split; [done |]. exists es.
  split; [done |]. split; [| done].
  eapply Forall_impl; [done |]. done.
Qed.

(** With no prompt, no answer is read. *)
Lemma frame_answers_untouched w w' :
  frame is_prompt w w' →
  w_int_answers w' = w_int_answers w
  ∧ w_str_answers w' = w_str_answers w.
Proof. intros (He & es & Ht & Hp & Hc & Ha). by apply Ha. Qed.

(** With no call on the config object, nothing of it changes. *)
Lemma frame_config_untouched w w' :
  frame is_config_call w w' →
  w_config w' = w_config w
  ∧ w_store w' = w_store w
  ∧ count_events is_config_call (events_since w w') = O.
Proof.
  intros (He & es & Ht & Hp & Hc & Ha). destruct (Hc Hp) as [? ?].
  repeat split; try done.
  rewrite (events_since_app es) by done. unfold count_events.
  clear -Hp. induction Hp as [| e es He _ IH]; [done |].
  rewrite filter_cons_False by congruence. done.
Qed.

Lemma frame_count p w w' :
  frame p w w' → count_events p (events_since w w') = O.
Proof.
  intros (He & es & Ht & Hp & Hc & Ha).
  rewrite (events_since_app es) by done. unfold count_events.
  clear -Hp. induction Hp as [| e es He _ IH]; [done |].
  rewrite filter_cons_False by congruence. done.
Qed.

Section Within.

Variable p : event → bool.

Lemma within_ret {A} (Q : A → Prop) a w :
  Q a → within (frame p) Q (ret a) w.
Proof. intros HQ. split; [apply frame_refl |]. by intros ? [= <-]. Qed.

Lemma within_raise {A} (Q : A → Prop) e w :
  within (frame p) Q (raise e) w.
Proof. split; [apply frame_refl | done]. Qed.

Lemma within_weaken {A} (Q Q' : A → Prop) m w :
  (∀ a, Q a → Q' a) → within (frame p) Q m w → within (frame p) Q' m w.
Proof. intros HQ [HR Hret]. split; [done |]. intros a Ha. by apply HQ, Hret. Qed.

Lemma within_bind {A B} (Q1 : A → Prop) (Q2 : B → Prop) (m : M A)
    (k : A → M B) w :
  within (frame p) Q1 m w →
  (∀ a w1, frame p w w1 → Q1 a → within (frame p) Q2 (k a) w1) →
  within (frame p) Q2 (m ≫= k) w.
Proof.
  intros [HR Hret] Hk. unfold within. rewrite bind_run.
  destruct (m w) as [[a | e |] w1]; cbn [fst snd] in *; [| done | done].
  destruct (Hk a w1 HR (Hret a eq_refl)) as [HR2 Hret2].
  split; [by eapply frame_trans | done].
Qed.

Lemma within_try_except {A} (Q : A → Prop) (body : M A) handler w :
  within (frame p) Q body w →
  (∀ e h w1, handler e = Some h → frame p w w1 →
             within (frame p) Q h w1) →
  within (frame p) Q (try_except body handler) w.
Proof.
  intros [HR Hret] Hh. unfold within, try_except.
  destruct (body w) as [[a | e |] w1]; cbn [fst snd] in *; [done | | done].
  destruct (handler e) as [h |] eqn:He; [| done].
  destruct (Hh e h w1 He HR) as [HR2 Hret2].
  split; [by eapply frame_trans | done].
Qed.

Lemma within_get_world w :
  within (frame p) (λ x, x = w) get_world w.
Proof. split; [apply frame_refl |]. by intros ? [= <-]. Qed.

Lemma within_effect e w :
  p e = false → within (frame p) anything (effect e) w.
Proof.
  intros Hp. split; [| done]. unfold effect.
  destruct (w_interrupt w) as [[| k] |]; cbn [snd]; [apply frame_refl | |];
    (split; [done |]; exists [e]; wsimpl;
     split; [done |]; split; [by constructor | done]).
Qed.

Lemma within_format tmpl args w :
  within (frame p) anything (format tmpl args) w.
Proof.
  unfold format. destruct (pyformat tmpl args);
    [by apply within_ret | apply within_raise].
Qed.

Lemma within_for_each {A S} (l : list A) (body : A → S → M S) :
  (∀ x s w, within (frame p) anything (body x s) w) →
  ∀ s w, within (frame p) anything (for_each l body s) w.
Proof.
  intros Hbody. induction l as [| x l IH]; intros s w; cbn [for_each].
  - by apply within_ret.
  - eapply within_bind; [apply Hbody |]. intros. apply IH.
Qed.

(** A [while] loop that returns has its condition false. *)
Lemma within_while {S} (cond : S → bool) (body : S → M S) :
  (∀ s w, within (frame p) anything (body s) w) →
  ∀ fuel s w,
    within (frame p) (λ s', cond s' = false) (while_ fuel cond body s) w.
Proof.
  intros Hbody. induction fuel as [| fuel IH]; intros s w; cbn [while_];
    destruct (cond s) eqn:Hc; try by apply within_ret.
  - split; [apply frame_refl | done].
  - eapply within_bind; [apply Hbody |]. intros. apply IH.
Qed.

End Within.

Section Frames.

(** [p] marks the events a run must not make; it marks no event other than
    prompts and calls on the config object. *)
Variable p : event → bool.
Hypothesis p_other :
  ∀ e, is_prompt e = false → is_config_call e = false → p e = false.

(** [p] marks no prompt; [p] marks no call on the config object. *)
Definition allows_prompts : Prop := ∀ e, is_prompt e = true → p e = false.
Definition allows_config_calls : Prop :=
  ∀ e, is_config_call e = true → p e = false.

Lemma within_secho msg fg w : within (frame p) anything (secho msg fg) w.
Proof. apply within_effect. by apply p_other. Qed.

Lemma within_getattr_config name w :
  within (frame p) (λ v, cfg_view (w_config w) !! name = Some v)
    (getattr_config name) w.
Proof.
  unfold getattr_config. eapply within_bind; [apply within_get_world |].
  intros w' w1 _ ->. wsimpl.
  destruct (cfg_view (w_config w) !! name) eqn:Hv;
    [by apply within_ret | apply within_raise].
Qed.

Lemma within_hasattr_config name w :
  within (frame p)
    (λ b, b = bool_decide (is_Some (cfg_view (w_config w) !! name)))
    (hasattr_config name) w.
Proof. split; [apply frame_refl |]. by intros ? [= <-]. Qed.

Lemma within_check_wallet_file path w :
  within (frame p) (λ b, b = wallet_file_present (w_env w))
    (check_wallet_file path) w.
Proof.
  unfold check_wallet_file.
  eapply within_bind; [apply within_effect; by apply p_other |].
  intros _ w1 [He _] _. split; [apply frame_refl |].
  intros ? [= <-]. by rewrite He.
Qed.

Lemma within_open_wallet path w :
  within (frame p) (λ ma, ma = wallet_machine_auth (w_env w))
    (open_wallet path) w.
Proof.
  unfold open_wallet.
  eapply within_bind; [apply within_effect; by apply p_other |].
  intros _ w1 [He _] _. split; [apply frame_refl |].
  intros ? [= <-]. by rewrite He.
Qed.

Lemma within_account_info w :
  within (frame p)
    (λ usernames, account_info_usernames (w_env w) = inr usernames)
    account_info w.
Proof.
  unfold account_info.
  eapply within_bind; [apply within_effect; by apply p_other |].
  intros _ w1 [He _] _.
  eapply within_bind; [apply within_get_world |]. intros ? w2 _ ->.
  rewrite He. destruct (account_info_usernames (w_env w));
    [apply within_raise | by apply within_ret].
Qed.

Lemma within_update_password password w :
  within (frame p) anything (update_password password) w.
Proof.
  unfold update_password.
  eapply within_bind; [apply within_effect; by apply p_other |].
  intros _ w1 _ _.
  eapply within_bind; [apply within_get_world |]. intros ? w2 _ ->.
  destruct (update_password_outcome (w_env w1));
    [apply within_raise | by apply within_ret].
Qed.

Lemma within_check_setup w :
  within (frame p) anything check_setup_twentyone_account w.
Proof.
  unfold check_setup_twentyone_account.
  eapply within_bind; [apply within_effect; by apply p_other |].
  intros _ w1 _ _.
  eapply within_bind; [apply within_get_world |]. intros ? w2 _ ->.
  destruct (setup_outcome (w_env w1));
    [apply within_raise | by apply within_ret].
Qed.

Lemma within_create_wallet_and_account w :
  within (frame p) anything create_wallet_and_account w.
Proof.
  unfold create_wallet_and_account. apply within_try_except.
  - eapply within_bind; [apply within_effect; by apply p_other |].
    intros. apply within_check_setup.
  - intros e h w1 He _. destruct e; try done; injection He as <-;
      apply within_raise.
Qed.

(** A prompt for an index: one event, at most one answer read. *)
Lemma within_prompt_int text w :
  allows_prompts → within (frame p) anything (prompt_int text) w.
Proof.
  intros Hp. split; [| done].
  assert (p (EvPrompt text false true) = false) as He by by apply Hp.
  unfold prompt_int, effect, get_world, set_world, mbind, M_bind, bind,
    ret, raise.
  destruct (w_interrupt w) as [[| k] |]; wsimpl; [apply frame_refl | |];
    (destruct (w_int_answers w) as [| [z |] q]; wsimpl);
    (split; [done |]; exists [EvPrompt text false true]; wsimpl;
     split; [done |]; split; [by constructor |];
     split; [done |]; by intros [[=] _]%Forall_cons).
Qed.

Lemma within_next_str_answer_after e w :
  is_prompt e = true → p e = false →
  within (frame p) anything (effect e;; next_str_answer) w.
Proof.
  intros Hprompt He. split; [| done].
  unfold next_str_answer, effect, get_world, set_world, mbind, M_bind, bind,
    ret, raise.
  destruct (w_interrupt w) as [[| k] |]; wsimpl; [apply frame_refl | |];
    (destruct (w_str_answers w) as [| [z |] q]; wsimpl);
    (split; [done |]; exists [e]; wsimpl;
     split; [done |]; split; [by constructor |];
     split; [done |]; intros [Hn _]%Forall_cons; congruence).
Qed.

Lemma within_prompt_str text hide w :
  allows_prompts → within (frame p) anything (prompt_str text hide) w.
Proof. intros Hp. apply within_next_str_answer_after; [done | by apply Hp]. Qed.

Lemma within_get_password username w :
  allows_prompts → within (frame p) anything (get_password username) w.
Proof. intros Hp. apply within_next_str_answer_after; [done | by apply Hp]. Qed.

Lemma within_config_call e (f : World → World) w :
  is_config_call e = true → p e = false →
  (∀ w, w_env (f w) = w_env w ∧ w_trace (f w) = w_trace w
        ∧ w_int_answers (f w) = w_int_answers w
        ∧ w_str_answers (f w) = w_str_answers w) →
  within (frame p) anything (effect e;; set_world f) w.
Proof.
  intros Hc He Hf. split; [| done].
  unfold effect, set_world, mbind, M_bind, bind.
  destruct (w_interrupt w) as [[| k] |]; wsimpl; [apply frame_refl | |].
  - destruct (Hf (log [e] (with_interrupt (Some k) w))) as (H1 & H2 & H3 & H4).
    split; [by rewrite H1 |]. exists [e].
    split; [by rewrite H2 |]. split; [by constructor |].
    split; [intros [Hn _]%Forall_cons; congruence |].
    intros _. by rewrite H3, H4.
  - destruct (Hf (log [e] w)) as (H1 & H2 & H3 & H4).
    split; [by rewrite H1 |]. exists [e].
    split; [by rewrite H2 |]. split; [by constructor |].
    split; [intros [Hn _]%Forall_cons; congruence |].
    intros _. by rewrite H3, H4.
Qed.

Lemma within_save_config machine_auth username w :
  allows_config_calls →
  within (frame p) anything (save_config machine_auth username) w.
Proof.
  intros Hp. unfold save_config.
  eapply within_bind; [apply within_format |]. intros msg w1 _ _.
  eapply within_bind; [apply within_secho |]. intros _ w2 _ _.
  eapply within_bind.
  { apply within_config_call; [done | by apply Hp | done]. }
  intros _ w3 _ _. eapply within_bind.
  { apply within_config_call; [done | by apply Hp | done]. }
  intros _ w4 _ _. eapply within_bind.
  { apply within_config_call; [done | by apply Hp | done]. }
  intros _ w5 _ _. apply within_config_call; [done | by apply Hp | done].
Qed.

(** [get_machine_auth]: what it returns is the machine auth the world
    resolves to; it returns none when there is none to resolve. *)
Lemma within_get_machine_auth w :
  within (frame p) (λ r, r = resolved_machine_auth w) get_machine_auth w.
Proof.
  unfold get_machine_auth, resolved_machine_auth.
  eapply within_bind; [apply within_get_world |]. intros ? w1 [He1 _] ->.
  destruct (cfg_machine_auth (w_config w)) as [ma |]; [by apply within_ret |].
  eapply within_bind; [apply within_effect; by apply p_other |].
  intros _ w2 [He2 _] _.
  eapply within_bind; [apply within_check_wallet_file |].
  intros present w3 [He3 _] ->. rewrite He2, He1.
  destruct (wallet_file_present (w_env w)); cbn [negb].
  - eapply within_bind; [apply within_open_wallet |].
    intros ma w4 _ ->. apply within_ret. by rewrite He3, He2, He1.
  - eapply within_bind; [apply within_create_wallet_and_account |].
    intros. by apply within_ret.
Qed.

Lemma within_set_password user w :
  allows_prompts → within (frame p) anything (_set_password user) w.
Proof.
  intros Hp. unfold _set_password. apply within_try_except.
  - eapply within_bind; [apply within_hasattr_config |]. intros has w1 _ _.
    destruct has; cbn [negb]; [| apply within_secho].
    eapply within_bind; [apply within_getattr_config |]. intros u w2 _ _.
    eapply within_bind; [by apply within_get_password |]. intros pw w3 _ _.
    eapply within_bind; [apply within_get_machine_auth |]. intros ma w4 _ _.
    eapply within_bind; [apply within_getattr_config |]. intros u' w5 _ _.
    eapply within_bind; [apply within_effect; by apply p_other |].
    intros. apply within_update_password.
  - intros e h w1 He _. destruct e; try done. injection He as <-.
    by apply within_ret.
Qed.

Lemma within_prompt_index_body n s w :
  allows_prompts → within (frame p) anything (prompt_index_body n s) w.
Proof.
  intros Hp. unfold prompt_index_body.
  eapply within_bind; [by apply within_prompt_int |]. intros i w1 _ _.
  apply (within_bind p anything); [| intros; by apply within_ret].
  destruct (index_rejected n i); [| by apply within_ret].
  eapply within_bind; [apply within_format |]. intros. apply within_secho.
Qed.

(** The index the loop returns is in range. *)
Lemma within_prompt_index_loop fuel n w :
  allows_prompts →
  within (frame p) (λ i, 1 ≤ i ≤ n) (prompt_index_loop fuel n) w.
Proof.
  intros Hp. unfold prompt_index_loop.
  eapply within_weaken; [| apply within_while].
  - intros i. apply index_accepted_spec.
  - intros. by apply within_prompt_index_body.
Qed.

Lemma within_py_index {A} (l : list A) i w :
  within (frame p) (λ x, x ∈ l) (py_index l i) w.
Proof.
  unfold py_index. destruct (_ <? 0); [apply within_raise |].
  destruct (l !! _) as [x |] eqn:Hx; [| apply within_raise].
  apply within_ret. by eapply list_elem_of_lookup_2.
Qed.

(** The username [_login] settles on is one the account service reported,
    and it is the explicit one when one was given. *)
Lemma within_login_resolve_username usernames user w :
  (user = None → allows_prompts) →
  within (frame p)
    (λ r, ∀ u, r = Some u →
          u ∈ usernames ∧ ∀ given, user = Some given → u = given)
    (_login_resolve_username usernames user) w.
Proof.
  intros Hp. unfold _login_resolve_username. destruct user as [given |].
  - destruct (bool_decide (given ∈ usernames)) eqn:Hin.
    + apply within_ret. intros u [= <-]. apply bool_decide_eq_true in Hin.
      split; [done |]. by intros ? [= ->].
    + eapply within_bind; [apply within_format |]. intros msg w1 _ _.
      eapply within_bind; [apply within_secho |]. intros.
      by apply within_ret.
  - specialize (Hp eq_refl).
    eapply within_bind; [apply within_secho |]. intros _ w1 _ _.
    eapply within_bind.
    { apply within_for_each. intros x s w'.
      eapply within_bind; [apply within_format |]. intros msg w2 _ _.
      eapply within_bind; [apply within_secho |]. intros.
      by apply within_ret. }
    intros _ w2 _ _.
    eapply within_bind; [apply within_get_world |]. intros ? w3 _ ->.
    eapply within_bind; [by apply within_prompt_index_loop |].
    intros i w4 _ Hi.
    eapply within_bind; [apply within_py_index |]. intros u w5 _ Hu.
    apply within_ret. intros ? [= <-]. split; [done |]. done.
Qed.

Lemma within_login_with_machine_auth machine_auth user w :
  (user = None → allows_prompts) → allows_config_calls →
  within (frame p) anything (_login_with_machine_auth machine_auth user) w.
Proof.
  intros Hprompt Hconfig. unfold _login_with_machine_auth.
  eapply within_bind; [apply within_effect; by apply p_other |].
  intros _ w1 _ _.
  eapply within_bind; [apply within_account_info |]. intros usernames w2 _ _.
  destruct (Nat.eqb _ _); [apply within_create_wallet_and_account |].
  eapply within_bind; [by apply within_login_resolve_username |].
  intros [username |] w3 _ _;
    [by apply within_save_config | by apply within_ret].
Qed.

Lemma within_login user w :
  (user = None → allows_prompts) → allows_config_calls →
  within (frame p) anything (_login user) w.
Proof.
  intros Hprompt Hconfig. unfold _login.
  eapply within_bind; [apply within_getattr_config |]. intros current w1 _ _.
  apply (within_bind p anything).
  { destruct (truthy current); [| by apply within_ret].
    eapply within_bind; [apply within_format |]. intros. apply within_secho. }
  intros _ w2 _ _.
  eapply within_bind; [apply within_get_world |]. intros ? w3 _ ->.
  destruct (cfg_machine_auth (w_config w2)) as [machine_auth |];
    [by apply within_login_with_machine_auth |].
  eapply within_bind; [apply within_effect; by apply p_other |].
  intros _ w4 _ _.
  eapply within_bind; [apply within_check_wallet_file |].
  intros present w5 _ _.
  destruct (negb present); [apply within_create_wallet_and_account |].
  eapply within_bind; [apply within_open_wallet |]. intros.
  by apply within_login_with_machine_auth.
Qed.

End Frames.

Lemma config_calls_are_no_prompts e :
  is_config_call e = true → is_prompt e = false.
Proof. by destruct e. Qed.

Lemma prompts_are_no_config_calls e :
  is_prompt e = true → is_config_call e = false.
Proof. by destruct e. Qed.

(** X1: whatever is typed, whatever the outside answers and wherever an
    interrupt falls, [_set_password] makes no call on the config object and
    leaves the config object and the file as they were; and it never ends
    in [Abort], which its [except] clause turns into a normal return. *)
Theorem set_password_leaves_config (w : World) (user : option string) :
  let run := _set_password user w in
  fst run ≠ Raise Abort
  ∧ w_config (snd run) = w_config w
  ∧ w_store (snd run) = w_store w
  ∧ count_events is_config_call (events_since w (snd run)) = O.
Proof.
  intros run. split.
  - subst run. unfold _set_password, try_except.
    match goal with |- context [match ?b w with _ => _ end] =>
      destruct (b w) as [[[] | e |] w1] end; try done.
    by destruct e.
  - apply frame_config_untouched.
    apply (within_set_password is_config_call); [by intros e _ H |].
    exact prompts_are_no_config_calls.
Qed.

(** X2: the index loop of [_login], on any answers: with the fuel [_login]
    gives it the loop always ends; an index it returns is within
    [1, n], so with [n <= 0] it returns none; and it makes no call on the
    config object, which stays as it was. *)
Theorem prompt_index_loop_postcondition (w : World) (n : Z) :
  let run := prompt_index_loop (S (length (w_int_answers w))) n w in
  fst run ≠ OutOfFuel
  ∧ (∀ i, fst run = Ret i → 1 ≤ i ≤ n)
  ∧ (n ≤ 0 → ∀ i, fst run ≠ Ret i)
  ∧ w_config (snd run) = w_config w
  ∧ w_store (snd run) = w_store w.
Proof.
  intros run.
  assert (within (frame is_config_call) (λ i, 1 ≤ i ≤ n)
            (prompt_index_loop (S (length (w_int_answers w))) n) w)
    as [Hframe Hret].
  { apply within_prompt_index_loop; [by intros e _ H |].
    exact prompts_are_no_config_calls. }
  destruct (frame_config_untouched _ _ Hframe) as (Hc & Hs & _).
  split; [apply prompt_index_while_total; lia |].
  split; [exact Hret |]. split; [| done].
  intros Hn i Hi. specialize (Hret i Hi). lia.
Qed.

(** X3: with an explicit username [_login] never prompts and never reads an
    answer, whatever the account service reports (the username among the
    accounts or not, no account at all, a failure) and wherever an
    interrupt falls. *)
Theorem login_explicit_never_prompts (w : World) (user : string) :
  let run := _login (Some user) w in
  count_events is_prompt (events_since w (snd run)) = O
  ∧ w_int_answers (snd run) = w_int_answers w
  ∧ w_str_answers (snd run) = w_str_answers w.
Proof.
  intros run.
  assert (frame is_prompt w (snd run)) as Hframe.
  { apply (within_login is_prompt); [by intros e H _ | done |].
    exact config_calls_are_no_prompts. }
  split; [by apply frame_count | by apply frame_answers_untouched].
Qed.

(** ** The file changes all at once, and only to a reported username *)

(** [save_config] from any world: the file is either as it was, or holds
    both keys and the call has returned. *)
Lemma save_config_store_cases machine_auth username w :
  w_store (snd (save_config machine_auth username w)) = w_store w
  ∨ fst (save_config machine_auth username w) = Ret tt
    ∧ w_store (snd (save_config machine_auth username w))
      = session_bound machine_auth username (w_store w).
Proof.
  destruct (w_interrupt w) as [k |] eqn:Hi.
  - destruct w as [env cfg store tr ia sa intr]; wsimpl in Hi; subst intr.
    do 5 (destruct k as [| k]; [left; reflexivity |]).
    right. split; reflexivity.
  - right. rewrite save_config_run by done. split; reflexivity.
Qed.

(** X4: [save_config] is all or nothing on the file wherever an interrupt
    falls: either the file is as it was, or the call has returned and the
    file holds the new [username] and [mining_auth_pubkey] together.  Every
    other key of the file keeps the value the file had, whatever the
    in-memory view held before the call. *)
Theorem save_config_all_or_nothing
    (w : World) (machine_auth : MachineAuth) (username : string) :
  let run := save_config machine_auth username w in
  (w_store (snd run) = w_store w
   ∨ fst run = Ret tt
     ∧ w_store (snd run) !! "username" = Some (PStr username)
     ∧ w_store (snd run) !! "mining_auth_pubkey"
       = Some (PStr (b64encode (compressed_bytes (public_key machine_auth)))))
  ∧ (∀ key, key ≠ "username" → key ≠ "mining_auth_pubkey" →
       w_store (snd run) !! key = w_store w !! key).
Proof.
  intros run. subst run.
  destruct (save_config_store_cases machine_auth username w)
    as [-> | [Hret ->]].
  - split; [by left | done].
  - split.
    + right. split; [done |]. unfold session_bound.
      by rewrite lookup_insert_ne, !lookup_insert_eq.
    + intros key H1 H2. unfold session_bound.
      by rewrite !lookup_insert_ne.
Qed.

(** What [_login user] may have done to the file when it stops in [w']:
    nothing, or bound one of the reported usernames (the explicit one, when
    given) to the resolved machine auth. *)
Definition login_outcome (user : option string) (w w' : World) : Prop :=
  w_store w' = w_store w
  ∨ ∃ machine_auth usernames username,
      resolved_machine_auth w = Some machine_auth
      ∧ account_info_usernames (w_env w) = inr usernames
      ∧ username ∈ usernames
      ∧ (∀ given, user = Some given → username = given)
      ∧ w_store w' = session_bound machine_auth username (w_store w).

Lemma frame_resolved w w1 :
  frame is_config_call w w1 →
  resolved_machine_auth w1 = resolved_machine_auth w.
Proof.
  intros Hf. destruct (frame_config_untouched _ _ Hf) as (Hc & _ & _).
  destruct Hf as [He _]. unfold resolved_machine_auth. by rewrite Hc, He.
Qed.

Lemma login_outcome_frame user w w1 :
  frame is_config_call w w1 → login_outcome user w w1.
Proof. intros Hf. left. by apply frame_config_untouched. Qed.

Lemma login_outcome_after user w w1 w2 :
  frame is_config_call w w1 → login_outcome user w1 w2 →
  login_outcome user w w2.
Proof.
  intros Hf Ho. pose proof (frame_resolved _ _ Hf) as Hr.
  destruct (frame_config_untouched _ _ Hf) as (_ & Hs & _).
  destruct Hf as [He _]. unfold login_outcome in *.
  by rewrite Hr, Hs, He in Ho.
Qed.

(** A step that leaves the config alone, then a rest with a known
    outcome. *)
Lemma login_outcome_bind {A B} (Q : A → Prop) (m : M A) (k : A → M B)
    user w :
  within (frame is_config_call) Q m w →
  (∀ a w1, frame is_config_call w w1 → Q a →
           login_outcome user w1 (snd (k a w1))) →
  login_outcome user w (snd ((m ≫= k) w)).
Proof.
  intros [Hf Hret] Hk. rewrite bind_run.
  destruct (m w) as [[a | e |] w1]; cbn [fst snd] in *;
    [| by apply login_outcome_frame | by apply login_outcome_frame].
  eapply login_outcome_after; [done |]. apply Hk; [done | by apply Hret].
Qed.

Lemma no_config_call_other e :
  is_prompt e = false → is_config_call e = false → is_config_call e = false.
Proof. done. Qed.

Lemma login_outcome_with_machine_auth machine_auth user w :
  resolved_machine_auth w = Some machine_auth →
  login_outcome user w (snd (_login_with_machine_auth machine_auth user w)).
Proof.
  intros Hm. unfold _login_with_machine_auth.
  eapply login_outcome_bind;
    [apply within_effect; reflexivity |]. intros _ w1 Hf1 _.
  eapply login_outcome_bind;
    [apply within_account_info; exact no_config_call_other |].
  intros usernames w2 Hf2 Hu.
  destruct (Nat.eqb _ _).
  { apply login_outcome_frame.
    apply within_create_wallet_and_account. exact no_config_call_other. }
  eapply login_outcome_bind.
  { apply (within_login_resolve_username is_config_call);
      [exact no_config_call_other |].
    intros _. exact prompts_are_no_config_calls. }
  intros [username |] w3 Hf3 Hin; [| by apply login_outcome_frame, frame_refl].
  destruct (Hin username eq_refl) as [Hmem Hgiven].
  destruct (save_config_store_cases machine_auth username w3)
    as [Hsame | [_ Hbound]]; [by left |].
  right. exists machine_auth, usernames, username.
  pose proof (frame_trans _ _ _ _ Hf2 Hf3) as Hf23.
  pose proof (frame_trans _ _ _ _ Hf1 Hf23) as Hf.
  rewrite (frame_resolved _ _ Hf).
  destruct Hf23 as [He23 _].
  repeat split; try done. by rewrite He23.
Qed.

(** X5: whatever is typed, whatever the outside answers and wherever an
    interrupt falls, when [_login] stops the file is either as it was, or
    it holds a username the account service reported for the resolved
    machine auth (the explicit one when one was given) together with that
    machine auth's public key: [_login] never writes a username the service
    did not report, and never one key without the other. *)
Theorem login_binds_only_reported_username
    (w : World) (user : option string) :
  let w' := snd (_login user w) in
  w_store w' = w_store w
  ∨ ∃ machine_auth usernames username,
      resolved_machine_auth w = Some machine_auth
      ∧ account_info_usernames (w_env w) = inr usernames
      ∧ username ∈ usernames
      ∧ (∀ given, user = Some given → username = given)
      ∧ w_store w' = session_bound machine_auth username (w_store w).
Proof.
  intros w'. subst w'. change (login_outcome user w (snd (_login user w))).
  unfold _login.
  eapply login_outcome_bind;
    [apply within_getattr_config |]. intros current w1 Hf1 _.
  apply (login_outcome_bind anything).
  { destruct (truthy current); [| by apply within_ret].
    eapply within_bind; [apply within_format |]. intros.
    apply within_secho. exact no_config_call_other. }
  intros _ w2 Hf2 _.
  eapply login_outcome_bind; [apply within_get_world |].
  intros ? w3 Hf3 ->.
  destruct (cfg_machine_auth (w_config w2)) as [machine_auth |] eqn:Hcached.
  { apply login_outcome_with_machine_auth.
    rewrite (frame_resolved _ _ Hf3). unfold resolved_machine_auth.
    by rewrite Hcached. }
  eapply login_outcome_bind; [apply within_effect; reflexivity |].
  intros _ w4 Hf4 _.
  eapply login_outcome_bind;
    [apply within_check_wallet_file; exact no_config_call_other |].
  intros present w5 Hf5 ->.
  destruct (wallet_file_present (w_env w4)) eqn:Hfile; cbn [negb].
  - eapply login_outcome_bind;
      [apply within_open_wallet; exact no_config_call_other |].
    intros machine_auth w6 Hf6 ->.
    apply login_outcome_with_machine_auth.
    pose proof (frame_trans _ _ _ _ Hf5 Hf6) as Hf56.
    pose proof (frame_trans _ _ _ _ Hf4 Hf56) as Hf46.
    pose proof (frame_trans _ _ _ _ Hf3 Hf46) as Hf26.
    rewrite (frame_resolved _ _ Hf26). unfold resolved_machine_auth.
    destruct Hf4 as [He4 _], Hf5 as [He5 _], Hf3 as [He3 _].
    rewrite Hcached. rewrite <- He3, <- He4, Hfile. by rewrite He5.
  - apply login_outcome_frame.
    apply within_create_wallet_and_account. exact no_config_call_other.
Qed.

(** ** The two copies of the machine auth lookup *)

Lemma bind_assoc_run {A B C} (m : M A) (f : A → M B) (g : B → M C) w :
  ((m ≫= f) ≫= g) w = (m ≫= λ a, f a ≫= g) w.
Proof. rewrite !bind_run. by destruct (m w) as [[a | e |] w1]. Qed.

Lemma bind_ext_run {A B} (m : M A) (f g : A → M B) w :
  (∀ a w1, f a w1 = g a w1) → (m ≫= f) w = (m ≫= g) w.
Proof.
  intros Hfg. rewrite !bind_run. by destruct (m w) as [[a | e |] w1].
Qed.

Lemma bind_ret_tt_run (m : M unit) w : (m ≫= λ _, ret tt) w = m w.
Proof. rewrite bind_run. by destruct (m w) as [[[] | e |] w1]. Qed.

(** X6: the machine auth lookup written out in [_login] (lines 114-125) is
    [get_machine_auth]: from every world, [_login] does what it would do
    with the lookup replaced by a call to [get_machine_auth] followed by a
    return when that hands back nothing.  So when [get_machine_auth] and
    [_login] differ in what follows account creation, it is only through
    what their callers do with the missing machine auth. *)
Theorem login_inlines_get_machine_auth (w : World) (user : option string) :
  _login user w
  = (current ← getattr_config "username";
     (if truthy current then
        msg ← format "Currently logged in as: {}" [current];
        secho msg (Some "blue")
      else ret tt);;
     machine_auth ← get_machine_auth;
     match machine_auth with
     | Some machine_auth => _login_with_machine_auth machine_auth user
     | None => ret tt
     end) w.
Proof.
  unfold _login. apply bind_ext_run. intros current w1.
  apply bind_ext_run. intros _ w2.
  unfold get_machine_auth. rewrite bind_assoc_run.
  apply bind_ext_run. intros w3 w4.
  destruct (cfg_machine_auth (w_config w3)) as [machine_auth |]; [done |].
  rewrite bind_assoc_run. apply bind_ext_run. intros _ w5.
  cbv zeta. rewrite bind_assoc_run. apply bind_ext_run. intros present w6.
  destruct (negb present).
  - rewrite bind_assoc_run. symmetry. apply bind_ret_tt_run.
  - rewrite bind_assoc_run. by apply bind_ext_run.
Qed.

(** ** Setting the password *)

(** The calls of the machine auth lookup when it finds a machine auth. *)
Definition machine_auth_events (w : World) : list event :=
  match cfg_machine_auth (w_config w) with
  | Some _ => []
  | None =>
      [ EvProvider TWO1_PROVIDER_HOST;
        EvCheckWalletFile DEFAULT_WALLET_PATH;
        EvWallet DEFAULT_WALLET_PATH ]
  end.

Lemma get_machine_auth_run w machine_auth :
  w_interrupt w = None →
  resolved_machine_auth w = Some machine_auth →
  get_machine_auth w = (Ret (Some machine_auth), log (machine_auth_events w) w).
Proof.
  intros Hi Hm. unfold get_machine_auth, resolved_machine_auth,
    machine_auth_events in *.
  mstep. destruct (cfg_machine_auth (w_config w)) as [ma |].
  - injection Hm as ->. by rewrite log_nil.
  - destruct (wallet_file_present (w_env w)) eqn:Hfile; [| done].
    injection Hm as <-. do 2 mstep. wsimpl. rewrite Hfile. cbn [negb].
    mstep. unfold ret. trace_eq.
Qed.

Lemma get_password_cancelled_run username w :
  w_interrupt w = None →
  hd None (w_str_answers w) = None →
  ∃ w', get_password username w = (Raise Abort, w')
        ∧ w_trace w' = w_trace w ++ [EvGetPassword username]
        ∧ w_config w' = w_config w ∧ w_store w' = w_store w.
Proof.
  intros Hi Hq. unfold get_password. rewrite bind_run, effect_run by done.
  unfold next_str_answer, get_world, set_world, mbind, M_bind, bind, raise.
  wsimpl. destruct (w_str_answers w) as [| [s |] q]; [| done |];
    eexists; (split; [reflexivity |]); by wsimpl.
Qed.

(** X7: [_set_password] on a config with no [username] attribute prints the
    "no account found" message and returns: it asks for no password, looks
    for no machine auth or wallet, builds no rest client and sends
    nothing. *)
Theorem set_password_without_account (w : World) (user : option string) :
  w_interrupt w = None →
  cfg_view (w_config w) !! "username" = None →
  _set_password user w
  = (Ret tt, log [EvSecho (no_account_found UxString) None] w).
Proof.
  intros Hi Hc. unfold _set_password. apply try_except_Ret.
  erewrite bind_Ret; cycle 1.
  { unfold hasattr_config, get_world, mbind, M_bind, bind, ret.
    rewrite Hc. reflexivity. }
  rewrite bool_decide_eq_false_2 by (by intros [? ?]). cbn [negb].
  unfold secho. by rewrite effect_run.
Qed.

(** X8: [_set_password] with a username on the config and a machine auth
    to resolve (cached, or from the wallet file): it asks for the password
    first, then resolves the machine auth, builds the rest client for that
    machine auth and the config's username, and sends the typed password
    once.  It returns normally when the update succeeds and also when the
    update raises [Abort]; any other exception of the update passes
    through. *)
Theorem set_password_sends_typed_password
    (w : World) (user : option string) (username : pyval)
    (machine_auth : MachineAuth) (password : string)
    (rest : list (option string)) :
  w_interrupt w = None →
  cfg_view (w_config w) !! "username" = Some username →
  resolved_machine_auth w = Some machine_auth →
  w_str_answers w = Some password :: rest →
  _set_password user w
  = (match update_password_outcome (w_env w) with
     | None | Some Abort => Ret tt
     | Some e => Raise e
     end,
     with_str_answers rest
       (log ([EvGetPassword username]
             ++ machine_auth_events w
             ++ [ EvRestClient TWO1_HOST (Some machine_auth) (Some username);
                  EvUpdatePassword password ]) w)).
Proof.
  intros Hi Hc Hm Hq. unfold _set_password.
  set (body := (has ← hasattr_config "username"; _)).
  assert (body w
          = (match update_password_outcome (w_env w) with
             | None => Ret tt
             | Some e => Raise e
             end,
             with_str_answers rest
               (log ([EvGetPassword username]
                     ++ machine_auth_events w
                     ++ [ EvRestClient TWO1_HOST (Some machine_auth)
                            (Some username);
                          EvUpdatePassword password ]) w))) as Hbody.
  { subst body.
    erewrite bind_Ret by (by eapply hasattr_config_run). cbn [negb].
    do 2 mstep.
    erewrite bind_Ret
      by (apply get_machine_auth_run; wsimpl; [done |];
          unfold resolved_machine_auth in *; wsimpl; done).
    do 2 mstep.
    rewrite update_password_run by (wsimpl; done). wsimpl.
    f_equal. unfold machine_auth_events. wsimpl.
    destruct (cfg_machine_auth (w_config w)); clear; world_eq w. }
  destruct (update_password_outcome (w_env w)) as [e |].
  - rewrite (try_except_Raise _ _ _ _ _ Hbody). by destruct e.
  - by rewrite (try_except_Ret _ _ _ _ _ Hbody).
Qed.

(** X9: when the user cancels the password prompt (or the input ends),
    [_set_password] returns normally and has done nothing but ask: no
    machine auth lookup, no account creation, no rest client, nothing sent,
    config untouched. *)
Theorem set_password_cancelled
    (w : World) (user : option string) (username : pyval) :
  w_interrupt w = None →
  cfg_view (w_config w) !! "username" = Some username →
  hd None (w_str_answers w) = None →
  let run := _set_password user w in
  fst run = Ret tt
  ∧ events_since w (snd run) = [EvGetPassword username]
  ∧ w_config (snd run) = w_config w
  ∧ w_store (snd run) = w_store w.
Proof.
  intros Hi Hc Hq run. subst run.
  destruct (get_password_cancelled_run username w Hi Hq)
    as (w' & Hrun & Htrace & Hcfg & Hstore).
  unfold _set_password.
  erewrite try_except_Raise; cycle 1.
  { erewrite bind_Ret by (by eapply hasattr_config_run). cbn [negb].
    mstep. by rewrite (bind_Raise _ _ _ _ _ Hrun). }
  cbn [fst snd ret]. repeat split; try done. by apply events_since_app.
Qed.

(** ** Failures and cancellations in [_login] *)

Lemma account_info_fails_run e w :
  w_interrupt w = None →
  account_info_usernames (w_env w) = inl e →
  account_info w = (Raise e, log [EvAccountInfo] w).
Proof.
  intros Hi Ha. unfold account_info. mstep.
  unfold get_world, mbind, M_bind, bind. wsimpl. by rewrite Ha.
Qed.

(** [_login] up to the point where it has the machine auth. *)
Lemma login_to_machine_auth_run w user current machine_auth :
  w_interrupt w = None →
  cfg_view (w_config w) !! "username" = Some current →
  resolved_machine_auth w = Some machine_auth →
  _login user w
  = _login_with_machine_auth machine_auth user
      (log ((if truthy current then
               [EvSecho ("Currently logged in as: " +:+ py_str current)
                  (Some "blue")]
             else [])
            ++ machine_auth_events w) w).
Proof.
  intros Hi Hc Hm. unfold _login, machine_auth_events. mstep.
  unfold resolved_machine_auth in Hm.
  destruct (truthy current).
  - do 2 mstep. wsimpl.
    destruct (cfg_machine_auth (w_config w)) as [ma |].
    + injection Hm as ->. by rewrite app_nil_r.
    + destruct (wallet_file_present (w_env w)) eqn:Hfile; [| done].
      injection Hm as <-. do 2 mstep. wsimpl. rewrite Hfile. cbn [negb].
      mstep. by rewrite !log_log.
  - do 2 mstep. wsimpl. cbn [app].
    destruct (cfg_machine_auth (w_config w)) as [ma |].
    + injection Hm as ->. by rewrite log_nil.
    + destruct (wallet_file_present (w_env w)) eqn:Hfile; [| done].
      injection Hm as <-. do 2 mstep. wsimpl. rewrite Hfile. cbn [negb].
      mstep. by rewrite !log_log.
Qed.

(** X10: a failure of the account service is not caught in [_login]: the
    exception of [account_info] passes through as it is, and [_login] has
    then neither created an account, nor prompted, nor touched the
    config. *)
Theorem login_account_info_failure
    (w : World) (user : option string) (current : pyval)
    (machine_auth : MachineAuth) (e : exn) :
  w_interrupt w = None →
  cfg_view (w_config w) !! "username" = Some current →
  resolved_machine_auth w = Some machine_auth →
  account_info_usernames (w_env w) = inl e →
  let run := _login user w in
  run = (Raise e, log (login_preamble w current machine_auth) w)
  ∧ count_events is_account_creation (events_since w (snd run)) = O
  ∧ count_events is_prompt (events_since w (snd run)) = O
  ∧ count_events is_config_call (events_since w (snd run)) = O
  ∧ w_config (snd run) = w_config w
  ∧ w_store (snd run) = w_store w.
Proof.
  intros Hi Hc Hm Ha run.
  assert (run = (Raise e, log (login_preamble w current machine_auth) w))
    as Hrun.
  { subst run. rewrite (login_to_machine_auth_run w user current machine_auth)
      by done.
    unfold _login_with_machine_auth. mstep.
    erewrite bind_Raise by (apply account_info_fails_run; wsimpl; done).
    unfold login_preamble, machine_auth_events.
    rewrite !log_log, <- !app_assoc. done. }
  split; [done |]. rewrite Hrun. wsimpl. rewrite events_since_log.
  rewrite <- (app_nil_r (login_preamble w current machine_auth)).
  rewrite !count_events_preamble by done. done.
Qed.

Lemma prompt_int_cancelled_run text w :
  w_interrupt w = None →
  hd None (w_int_answers w) = None →
  ∃ w', prompt_int text w = (Raise Abort, w')
        ∧ w_trace w' = w_trace w ++ [EvPrompt text false true]
        ∧ w_config w' = w_config w ∧ w_store w' = w_store w.
Proof.
  intros Hi Hq. unfold prompt_int. rewrite bind_run, effect_run by done.
  unfold get_world, set_world, mbind, M_bind, bind, raise.
  wsimpl. destruct (w_int_answers w) as [| [s |] q]; [| done |];
    eexists; (split; [reflexivity |]); by wsimpl.
Qed.

(** The loop on a run of rejected answers followed by a cancellation or the
    end of the input. *)
Lemma prompt_index_while_cancelled n bounds_msg tail rejected :
  ∀ fuel s w,
    index_rejected n s = true →
    w_interrupt w = None →
    w_int_answers w = map Some rejected ++ tail →
    hd None tail = None →
    Forall (λ r, index_rejected n r = true) rejected →
    rejected = []
    ∨ pyformat (login_prompt_invalid_user UxString) [PInt 1; PInt n]
      = Some bounds_msg →
    (length rejected < fuel)%nat →
    ∃ w',
      while_ fuel (index_rejected n) (prompt_index_body n) s w
      = (Raise Abort, w')
      ∧ w_trace w'
        = w_trace w ++ rejection_events bounds_msg rejected
          ++ [EvPrompt (login_prompt UxString) false true]
      ∧ w_config w' = w_config w ∧ w_store w' = w_store w.
Proof.
  induction rejected as [| r rs IH];
    intros fuel s w Hs Hi Hq Htail Hrej Hmsg Hfuel;
    (destruct fuel as [| fuel]; [simpl in Hfuel; lia |]);
    cbn [while_]; rewrite Hs; unfold prompt_index_body;
    cbn [map app] in Hq.
  - destruct (prompt_int_cancelled_run (login_prompt UxString) w Hi)
      as (w' & Hrun & Ht & Hc & Hst); [by rewrite Hq |].
    exists w'. split; [| done].
    rewrite bind_run. by rewrite (bind_Raise _ _ _ _ _ Hrun).
  - apply Forall_cons in Hrej as [Hr Hrs].
    destruct Hmsg as [? | Hmsg]; [done |].
    rewrite bind_run. mstep. rewrite Hr. mstep. unfold ret at 1.
    destruct (IH fuel r
                (log [EvSecho bounds_msg None]
                   (with_int_answers (map Some rs ++ tail)
                      (log [EvPrompt (login_prompt UxString) false true] w))))
      as (w' & Hrun & Ht & Hc & Hst);
      [done | by wsimpl | by wsimpl | done | done | by right
      | simpl in Hfuel; lia | ].
    exists w'. split; [done |]. wsimpl in Ht. wsimpl in Hc. wsimpl in Hst.
    split; [| done]. rewrite Ht. unfold rejection_events. cbn [flat_map].
    by rewrite <- !app_assoc.
Qed.

(** X11: when the user cancels the index prompt, or the input ends, after
    any number of rejected answers, [_login] ends in [Abort]: what it has
    done is print the list, and prompt and print the bounds message for each
    rejected answer; [save_config] is not reached and the config object and
    file are as they were. *)
Theorem login_selection_cancelled
    (w : World) (current : pyval) (machine_auth : MachineAuth)
    (usernames : list string) (rejected : list Z)
    (tail : list (option Z)) (bounds_msg : string) :
  w_interrupt w = None →
  cfg_view (w_config w) !! "username" = Some current →
  resolved_machine_auth w = Some machine_auth →
  account_info_usernames (w_env w) = inr usernames →
  usernames ≠ [] →
  w_int_answers w = map Some rejected ++ tail →
  hd None tail = None →
  Forall (λ r, r ≤ 0 ∨ r > Z.of_nat (length usernames)) rejected →
  rejected = []
  ∨ pyformat (login_prompt_invalid_user UxString)
      [PInt 1; PInt (Z.of_nat (length usernames))]
    = Some bounds_msg →
  let run := _login None w in
  fst run = Raise Abort
  ∧ events_since w (snd run)
    = login_preamble w current machine_auth
      ++ [EvSecho (registered_usernames_title UxString) None]
      ++ numbered_from 1 usernames
      ++ rejection_events bounds_msg rejected
      ++ [EvPrompt (login_prompt UxString) false true]
  ∧ count_events is_config_call (events_since w (snd run)) = O
  ∧ w_config (snd run) = w_config w
  ∧ w_store (snd run) = w_store w.
Proof.
  intros Hi Hc Hm Ha Hne Hq Htail Hrej Hmsg run.
  set (w1 := log (login_preamble w current machine_auth
                  ++ [EvSecho (registered_usernames_title UxString) None]
                  ++ numbered_from 1 usernames) w).
  edestruct (prompt_index_while_cancelled (Z.of_nat (length usernames))
               bounds_msg tail rejected
               (S (length (w_int_answers w1))) (-1) w1)
    as (w' & Hloop & Ht & Hcfg & Hst); try done.
  { eapply Forall_impl; [done |]. intros r Hr. by apply index_rejected_spec. }
  { subst w1. wsimpl. rewrite Hq, length_app, length_map. lia. }
  assert (run = (Raise Abort, w')) as Hrun.
  { subst run.
    rewrite (login_preamble_run w None current machine_auth usernames)
      by done.
    rewrite nonempty_length_eqb by done.
    unfold _login_resolve_username. rewrite bind_run.
    do 3 mstep. rewrite !log_log, <- ?app_assoc. fold w1.
    unfold prompt_index_loop. by rewrite (bind_Raise _ _ _ _ _ Hloop). }
  rewrite Hrun. cbn [fst snd]. subst w1. wsimpl in Ht. wsimpl in Hcfg.
  wsimpl in Hst.
  assert (events_since w w'
          = login_preamble w current machine_auth
            ++ [EvSecho (registered_usernames_title UxString) None]
            ++ numbered_from 1 usernames
            ++ rejection_events bounds_msg rejected
            ++ [EvPrompt (login_prompt UxString) false true]) as Hev.
  { apply events_since_app. rewrite Ht. by rewrite <- !app_assoc. }
  rewrite Hev. repeat split; try done.
  rewrite count_events_preamble by done.
  unfold count_events. rewrite !filter_app, !length_app.
  cbn [filter length]. 
  assert (∀ c l, length (filter (λ e, is_config_call e = true)
                           (numbered_from c l)) = O) as ->.
  { intros c l. revert c. induction l as [| u l IH]; intros c; [done |].
    cbn [numbered_from]. by rewrite filter_cons_False. }
  assert (length (filter (λ e, is_config_call e = true)
                    (rejection_events bounds_msg rejected)) = O) as ->.
  { clear. induction rejected as [| r rs IH]; [done |].
    unfold rejection_events in *. cbn [flat_map app].
    by rewrite !filter_cons_False. }
  reflexivity.
Qed.

(** ** The plain login *)


Lemma prompt_str_cancelled_run text hide w :
  w_interrupt w = None →
  hd None (w_str_answers w) = None →
  ∃ w', prompt_str text hide w = (Raise Abort, w')
        ∧ w_trace w' = w_trace w ++ [EvPrompt text hide false]
        ∧ w_config w' = w_config w ∧ w_store w' = w_store w.
Proof.
  intros Hi Hq. unfold prompt_str. rewrite bind_run, effect_run by done.
  unfold next_str_answer, get_world, set_world, mbind, M_bind, bind, raise.
  wsimpl. destruct (w_str_answers w) as [| [s |] q]; [| done |];
    eexists; (split; [reflexivity |]); by wsimpl.
Qed.


(** Is the option missing or empty, so that [login] asks for it? *)
Definition asked (given : option string) : bool :=
  negb (truthy (opt_val given)).


(** X13: when the plain login has to ask for the username and the user
    cancels (or the input ends), [login] ends in [Abort], which nothing in
    the module catches on this path: the password is not asked for and
    nothing is printed. *)
Theorem login_plain_cancelled
    (w : World) (switchuser username password : option string) :
  w_interrupt w = None →
  truthy (opt_val switchuser) = false →
  asked username = true →
  hd None (w_str_answers w) = None →
  let run := login false switchuser false username password w in
  fst run = Raise Abort
  ∧ events_since w (snd run)
    = [EvPrompt (login_username UxString) false false]
  ∧ w_config (snd run) = w_config w
  ∧ w_store (snd run) = w_store w.
Proof.
  intros Hi Hs Hu Hq run. subst run. unfold login. rewrite Hs. cbn [orb].
  destruct (prompt_str_cancelled_run (login_username UxString) false w Hi Hq)
    as (w' & Hrun & Ht & Hc & Hst).
  assert (match username with
          | Some u =>
              if truthy (PStr u) then ret u else get_username_interactive
          | None => get_username_interactive
          end = get_username_interactive) as ->.
  { unfold asked in Hu. destruct username as [u |]; [| done].
    cbn [opt_val] in Hu. by destruct (truthy (PStr u)). }
  unfold get_username_interactive. rewrite (bind_Raise _ _ _ _ _ Hrun).
  cbn [fst snd]. repeat split; try done. by apply events_since_app.
Qed.

(** ** The lookup and the dispatcher, for every world *)

(** X14: whatever the outside answers and wherever an interrupt falls,
    what [get_machine_auth] returns is the machine auth cached on the
    config object, else the one of the wallet file, else nothing (after
    account creation has returned); with a cached one it makes no outside
    call at all.  It never prompts and never touches the config. *)
Theorem get_machine_auth_returns_resolved (w : World) :
  let run := get_machine_auth w in
  (∀ r, fst run = Ret r → r = resolved_machine_auth w)
  ∧ (∀ machine_auth,
       cfg_machine_auth (w_config w) = Some machine_auth →
       run = (Ret (Some machine_auth), w))
  ∧ count_events is_prompt (events_since w (snd run)) = O
  ∧ count_events is_config_call (events_since w (snd run)) = O
  ∧ w_config (snd run) = w_config w
  ∧ w_store (snd run) = w_store w.
Proof.
  intros run.
  destruct (within_get_machine_auth is_config_call no_config_call_other w)
    as [Hframe Hret].
  destruct (within_get_machine_auth is_prompt (λ e H _, H) w)
    as [Hquiet _].
  destruct (frame_config_untouched _ _ Hframe) as (Hc & Hs & Hn).
  split; [exact Hret |]. split.
  - intros machine_auth Hcached. subst run. unfold get_machine_auth.
    rewrite bind_run. cbn [get_world]. by rewrite Hcached.
  - split; [by apply frame_count |]. done.
Qed.

(** X15: the [login] command as dispatched never writes the config: for
    every combination of options, whatever is typed, whatever the outside
    answers and wherever an interrupt falls, it makes no call on the config
    object and leaves the config object and the file as they were.  (The
    functions that bind a session, [_login] and [save_config], are not
    reachable from it.) *)
Theorem login_never_writes_config
    (w : World) (accounts : bool) (switchuser : option string)
    (setpassword : bool) (username password : option string) :
  let run := login accounts switchuser setpassword username password w in
  count_events is_config_call (events_since w (snd run)) = O
  ∧ w_config (snd run) = w_config w
  ∧ w_store (snd run) = w_store w.
Proof.
  intros run.
  assert (frame is_config_call w (snd run)) as Hframe.
  { subst run. unfold login. destruct setpassword.
    { apply (within_set_password is_config_call no_config_call_other).
      exact prompts_are_no_config_calls. }
    destruct (truthy (opt_val switchuser) || accounts);
      [apply frame_refl |].
    assert (∀ (given : option string) (ask : M string) w0,
              (∀ w1, within (frame is_config_call) anything ask w1) →
              within (frame is_config_call) anything
                match given with
                | Some s => if truthy (PStr s) then ret s else ask
                | None => ask
                end w0) as Hopt.
    { intros [s |] ask w0 Hask; [| done].
      destruct (truthy (PStr s)); [by apply within_ret | done]. }
    apply (within_bind is_config_call anything anything).
    { apply Hopt. intros w1.
      apply (within_prompt_str is_config_call).
      exact prompts_are_no_config_calls. }
    intros u w1 _ _.
    apply (within_bind is_config_call anything anything).
    { apply Hopt. intros w2.
      apply (within_prompt_str is_config_call).
      exact prompts_are_no_config_calls. }
    intros pw w2 _ _. unfold login_with_username_password, print.
    eapply within_bind; [by apply within_effect |]. intros _ w3 _ _.
    eapply within_bind; [by apply within_effect |]. intros _ w4 _ _.
    by apply within_effect. }
  destruct (frame_config_untouched _ _ Hframe) as (Hc & Hs & Hn). done.
Qed.

End Login.

(** * Concrete runs

    The message texts, hosts and paths below stand in for the constants the
    module imports; the theorems above hold for any. *)

Local Close Scope string_scope.

Definition sample_ux : UxStringT :=
  {| login_username := "Username";
     login_password := "Password";
     no_account_found := "No account found.";
     registered_usernames_title := "Registered usernames:";
     login_prompt := "Select the number of the account to log in";
     login_prompt_invalid_user := "Please select a number between {} and {}";
     login_prompt_user_does_not_exist := "User {} does not exist";
     Error_connection_cli := "Cannot connect to the 21 servers.";
     Error_server_err := "The 21 servers returned an error." |}.

Definition sample_host : string := "https://api.example".
Definition sample_provider_host : string := "https://blockchain.example".
Definition sample_wallet_path : string := "~/.two1/wallet/default_wallet.json".

Definition sample_auth : MachineAuth :=
  {| public_key := {| compressed_bytes := ["M"; "a"; "n"]%byte |} |}.

Definition sample_env (wallet_file : bool) (usernames : list string)
    (setup : option exn) : Env :=
  {| wallet_file_present := wallet_file;
     wallet_machine_auth := sample_auth;
     account_info_usernames := inr usernames;
     setup_outcome := setup;
     update_password_outcome := None |}.

Definition sample_world (env : Env) (view : gmap string pyval)
    (int_answers : list (option Z)) (str_answers : list (option string))
    : World :=
  {| w_env := env;
     w_config := {| cfg_machine_auth := None; cfg_view := view |};
     w_store := view;
     w_trace := [];
     w_int_answers := int_answers;
     w_str_answers := str_answers;
     w_interrupt := None |}.

(** Logged in as nobody yet, a wallet file, two accounts; the user types 5,
    then 1. *)
Definition world_two_accounts : World :=
  sample_world (sample_env true ["alice"; "bob"] None)
    {["username" := PNone]} [Some 5; Some 1] [].

(** Three accounts, nothing typed. *)
Definition world_three_accounts : World :=
  sample_world (sample_env true ["alice"; "bob"; "carol"] None)
    {["username" := PNone]} [] [].

(** A wallet file but no account. *)
Definition world_no_accounts : World :=
  sample_world (sample_env true [] None) {["username" := PNone]} [] [].

(** Logged in as alice, no wallet file; the user types a new password. *)
Definition world_no_wallet : World :=
  sample_world (sample_env false ["alice"] None)
    {["username" := PStr "alice"]} [] [Some "hunter2"].

(** A config with no [username] attribute. *)
Definition world_fresh : World :=
  sample_world (sample_env true ["alice"] None) ∅ [] [].

Example two_accounts_run :
  let run := _login sample_ux sample_host sample_provider_host
               sample_wallet_path None world_two_accounts in
  fst run = Ret tt
  ∧ w_store (snd run) !! "username" = Some (PStr "alice")
  ∧ w_store (snd run) !! "mining_auth_pubkey" = Some (PStr "TWFu")
  ∧ count_events
      (λ e, bool_decide
              (e = EvSecho "Please select a number between 1 and 2" None))
      (w_trace (snd run)) = 1%nat.
Proof. vm_compute. done. Qed.

Example three_accounts_bob_run :
  let run := _login sample_ux sample_host sample_provider_host
               sample_wallet_path (Some "bob") world_three_accounts in
  fst run = Ret tt
  ∧ w_store (snd run) !! "username" = Some (PStr "bob")
  ∧ count_events is_prompt (w_trace (snd run)) = O.
Proof. vm_compute. done. Qed.

(** C1 at the spec's example: two accounts, the user enters 5 and then 1. *)
Lemma login_interactive_selection_witness :
  (w_int_answers world_two_accounts = map Some [5] ++ Some 1 :: []
   ∧ Forall (λ r, r ≤ 0 ∨ r > Z.of_nat (length ["alice"; "bob"])) [5]
   ∧ 1 ≤ 1 ≤ Z.of_nat (length ["alice"; "bob"]))
  ∧ ∃ username,
      ["alice"; "bob"] !! Z.to_nat (1 - 1) = Some username
      ∧ _login sample_ux sample_host sample_provider_host sample_wallet_path
          None world_two_accounts
        = save_config sample_auth username
            (with_int_answers []
               (log (login_preamble sample_host sample_provider_host
                       sample_wallet_path world_two_accounts PNone sample_auth
                     ++ [EvSecho (registered_usernames_title sample_ux) None]
                     ++ numbered_from 1 ["alice"; "bob"]
                     ++ rejection_events sample_ux
                          "Please select a number between 1 and 2" [5]
                     ++ [EvPrompt (login_prompt sample_ux) false true])
                  world_two_accounts))
      ∧ (∀ k user,
           ["alice"; "bob"] !! k = Some user →
           numbered_from 1 ["alice"; "bob"] !! k
           = Some (EvSecho (pretty (Z.of_nat k + 1) +:+ "- " +:+ user) None)).
Proof.
  split.
  - split; [reflexivity |]. split; [| cbn; lia].
    constructor; [right; cbn; lia | constructor].
  - apply (login_interactive_selection sample_ux sample_host
             sample_provider_host sample_wallet_path world_two_accounts
             PNone sample_auth ["alice"; "bob"] [5] 1 []
             "Please select a number between 1 and 2").
    + reflexivity.
    + reflexivity.
    + reflexivity.
    + reflexivity.
    + reflexivity.
    + constructor; [right; cbn; lia | constructor].
    + cbn; lia.
    + right. reflexivity.
Defined.

(** C2 at the spec's example: three accounts, [--username bob]. *)
Lemma login_explicit_username_witness :
  "bob" ∈ ["alice"; "bob"; "carol"]
  ∧ let run := _login sample_ux sample_host sample_provider_host
                 sample_wallet_path (Some "bob") world_three_accounts in
    run = save_config sample_auth "bob"
            (log (login_preamble sample_host sample_provider_host
                    sample_wallet_path world_three_accounts PNone sample_auth)
               world_three_accounts)
    ∧ fst run = Ret tt
    ∧ events_since world_three_accounts (snd run)
      = login_preamble sample_host sample_provider_host sample_wallet_path
          world_three_accounts PNone sample_auth
        ++ save_config_events sample_auth "bob"
    ∧ count_events is_prompt (events_since world_three_accounts (snd run)) = O
    ∧ w_int_answers (snd run) = w_int_answers world_three_accounts
    ∧ w_str_answers (snd run) = w_str_answers world_three_accounts
    ∧ w_store (snd run) !! "username" = Some (PStr "bob").
Proof.
  split.
  - repeat constructor.
  - apply (login_explicit_username sample_ux sample_host sample_provider_host
             sample_wallet_path world_three_accounts PNone sample_auth
             ["alice"; "bob"; "carol"] "bob");
      [reflexivity | reflexivity | reflexivity | reflexivity
      | repeat constructor].
Defined.

(** C3, amended, at a concrete input: three accounts, [--username zed]. *)
Lemma login_unknown_username_witness :
  (("zed" ∉ ["alice"; "bob"; "carol"])
   ∧ pyformat (login_prompt_user_does_not_exist sample_ux) [PStr "zed"]
     = Some "User zed does not exist")
  ∧ let run := _login sample_ux sample_host sample_provider_host
                 sample_wallet_path (Some "zed") world_three_accounts in
    run = (Ret tt,
           log (login_preamble sample_host sample_provider_host
                  sample_wallet_path world_three_accounts PNone sample_auth
                ++ [EvSecho "User zed does not exist" None])
             world_three_accounts)
    ∧ count_events is_config_call
        (events_since world_three_accounts (snd run)) = O
    ∧ w_config (snd run) = w_config world_three_accounts
    ∧ w_store (snd run) = w_store world_three_accounts.
Proof.
  assert ("zed" ∉ ["alice"; "bob"; "carol"]) as Hnot.
  { apply (bool_decide_unpack _). vm_compute. exact I. }
  split.
  - split; [exact Hnot | reflexivity].
  - apply (login_unknown_username sample_ux sample_host sample_provider_host
             sample_wallet_path world_three_accounts PNone sample_auth
             ["alice"; "bob"; "carol"] "zed" "User zed does not exist");
      [reflexivity | reflexivity | reflexivity | reflexivity
      | discriminate | exact Hnot | reflexivity].
Defined.

(** C3 as stated fails when the account service reports no usernames: the
    explicit username is not among them, yet [_login] prints no "does not
    exist" message; it goes to account creation instead. *)
Lemma login_unknown_username_no_accounts :
  let run := _login sample_ux sample_host sample_provider_host
               sample_wallet_path (Some "zed") world_no_accounts in
  account_info_usernames (w_env world_no_accounts) = inr []
  ∧ ("zed" ∉ ([] : list string))
  ∧ pyformat (login_prompt_user_does_not_exist sample_ux) [PStr "zed"]
    = Some "User zed does not exist"
  ∧ (EvSecho "User zed does not exist" None ∉ w_trace (snd run))
  ∧ count_events is_account_creation (w_trace (snd run)) = 1%nat.
Proof.
  cbv zeta. split; [reflexivity |]. split; [apply not_elem_of_nil |].
  split; [reflexivity |]. split; [| by vm_compute].
  apply (bool_decide_unpack _). vm_compute. exact I.
Qed.

(** C4 at the spec's example: a wallet file and no account. *)
Lemma login_no_accounts_witness :
  account_info_usernames (w_env world_no_accounts) = inr []
  ∧ let run := _login sample_ux sample_host sample_provider_host
                 sample_wallet_path None world_no_accounts in
    run = create_wallet_and_account sample_ux
            (log (login_preamble sample_host sample_provider_host
                    sample_wallet_path world_no_accounts PNone sample_auth)
               world_no_accounts)
    ∧ fst run
      = creation_result sample_ux (setup_outcome (w_env world_no_accounts))
    ∧ (setup_outcome (w_env world_no_accounts) = None → fst run = Ret tt)
    ∧ events_since world_no_accounts (snd run)
      = login_preamble sample_host sample_provider_host sample_wallet_path
          world_no_accounts PNone sample_auth
        ++ [EvNewConfig; EvCheckSetup]
    ∧ count_events is_account_creation
        (events_since world_no_accounts (snd run)) = 1%nat
    ∧ count_events is_prompt (events_since world_no_accounts (snd run)) = O
    ∧ count_events is_config_call
        (events_since world_no_accounts (snd run)) = O
    ∧ w_config (snd run) = w_config world_no_accounts
    ∧ w_int_answers (snd run) = w_int_answers world_no_accounts.
Proof.
  split; [reflexivity |].
  apply (login_no_accounts sample_ux sample_host sample_provider_host
           sample_wallet_path world_no_accounts PNone sample_auth None);
    reflexivity.
Defined.

(** C5 at a concrete input: the file after [save_config], and after an
    interrupt in place of the save. *)
Lemma save_config_binds_both_fields_witness :
  let run := save_config sample_auth "alice" world_two_accounts in
  let cut := save_config sample_auth "alice"
               (with_interrupt (Some 4%nat) world_two_accounts) in
  (w_store (snd run) !! "username" = Some (PStr "alice")
   ∧ w_store (snd run) !! "mining_auth_pubkey" = Some (PStr "TWFu"))
  ∧ fst cut = Raise KeyboardInterrupt
  ∧ w_store (snd cut) = w_store world_two_accounts.
Proof.
  cbv zeta. split.
  - pose proof (save_config_binds_both_fields world_two_accounts sample_auth
                  "alice") as [Hrun _].
    destruct (Hrun eq_refl) as (_ & _ & _ & Huser & Hkey & _).
    split; [exact Huser | exact Hkey].
  - pose proof (save_config_binds_both_fields
                  (with_interrupt (Some 4%nat) world_two_accounts)
                  sample_auth "alice") as (_ & Hcut & _).
    apply (Hcut 4%nat eq_refl). lia.
Defined.

(** C6 at a concrete input. *)
Lemma save_config_idempotent_witness :
  w_interrupt world_two_accounts = None
  ∧ let w1 := snd (save_config sample_auth "alice" world_two_accounts) in
    let w2 := snd (save_config sample_auth "alice" w1) in
    fst (save_config sample_auth "alice" world_two_accounts) = Ret tt
    ∧ fst (save_config sample_auth "alice" w1) = Ret tt
    ∧ w_store w2 = w_store w1
    ∧ w_config w2 = w_config w1.
Proof.
  split; [reflexivity |].
  apply (save_config_idempotent world_two_accounts sample_auth "alice").
  reflexivity.
Defined.

(** C7 at the failing input: logged in as alice, no wallet file. *)
Lemma set_password_goes_on_without_wallet_witness :
  (cfg_machine_auth (w_config world_no_wallet) = None
   ∧ wallet_file_present (w_env world_no_wallet) = false)
  ∧ let login_run := _login sample_ux sample_host sample_provider_host
                       sample_wallet_path None world_no_wallet in
    let set_run := _set_password sample_ux sample_host sample_provider_host
                     sample_wallet_path None world_no_wallet in
    fst login_run = Ret tt
    ∧ count_events is_account_service
        (events_since world_no_wallet (snd login_run)) = O
    ∧ count_events is_config_call
        (events_since world_no_wallet (snd login_run)) = O
    ∧ events_since world_no_wallet (snd set_run)
      = [ EvGetPassword (PStr "alice");
          EvProvider sample_provider_host;
          EvCheckWalletFile sample_wallet_path;
          EvNewConfig; EvCheckSetup;
          EvRestClient sample_host None (Some (PStr "alice"));
          EvUpdatePassword "hunter2" ]
    ∧ count_events is_account_service
        (events_since world_no_wallet (snd set_run)) = 2%nat.
Proof.
  split; [split; reflexivity |].
  apply (set_password_goes_on_without_wallet sample_ux sample_host
           sample_provider_host sample_wallet_path world_no_wallet None
           (PStr "alice") "hunter2" []);
    reflexivity.
Defined.

(** C8 at a concrete input: the delegated routine raises
    [UnloggedException]. *)
Lemma create_wallet_and_account_outcomes_witness :
  let w := sample_world (sample_env false [] (Some UnloggedException))
             ∅ [] [] in
  w_interrupt w = None
  ∧ fst (create_wallet_and_account sample_ux w) = Raise (SystemExit 1).
Proof.
  cbv zeta. split; [reflexivity |].
  pose proof (create_wallet_and_account_outcomes sample_ux
                (sample_world (sample_env false [] (Some UnloggedException))
                   ∅ [] [])
                eq_refl) as (_ & _ & _ & Hexit & _).
  apply Hexit. reflexivity.
Defined.

(** C9 as stated fails when set-password is requested as well: [login]
    then runs [_set_password] and [_switch_user] is never evaluated. *)
Lemma login_setpassword_skips_switch_user :
  ¬ (∀ (w : World) (accounts : bool) (switchuser : option string)
       (setpassword : bool) (username password : option string),
       is_Some switchuser ∨ accounts = true →
       fst (login sample_ux sample_host sample_provider_host
              sample_wallet_path accounts switchuser setpassword username
              password w)
       = Raise (NameError "_switch_user")).
Proof.
  intros H.
  specialize (H world_fresh true (Some "bob") true None None
                (or_intror eq_refl)).
  vm_compute in H. discriminate H.
Qed.

(** An empty switch-user value counts as not given: [login] goes on to the
    plain login. *)
Example login_empty_switchuser_is_plain_login :
  login sample_ux sample_host sample_provider_host sample_wallet_path
    false (Some "") false (Some "alice") (Some "hunter2") world_fresh
  = login_with_username_password "alice" "hunter2" world_fresh.
Proof. reflexivity. Qed.

(** C9, amended, at a concrete input: [21 login --accounts]. *)
Lemma login_switch_user_undefined_witness :
  (truthy (opt_val None) = true ∨ true = true)
  ∧ login sample_ux sample_host sample_provider_host sample_wallet_path
      true None false None None world_fresh
    = (Raise (NameError "_switch_user"), world_fresh).
Proof.
  split; [by right |].
  apply (login_switch_user_undefined sample_ux sample_host
           sample_provider_host sample_wallet_path world_fresh true None
           None None).
  by right.
Defined.

(** C10 at a concrete input. *)
Lemma login_with_username_password_only_prints_witness :
  w_interrupt world_fresh = None
  ∧ let run := login_with_username_password "alice" "hunter2" world_fresh in
    run = (Ret tt,
           log [EvPrint "-----"; EvPrint "alice"; EvPrint "hunter2"]
             world_fresh)
    ∧ events_since world_fresh (snd run)
      = [EvPrint "-----"; EvPrint "alice"; EvPrint "hunter2"]
    ∧ count_events is_account_service (events_since world_fresh (snd run)) = O
    ∧ count_events is_machine_auth (events_since world_fresh (snd run)) = O
    ∧ count_events is_config_call (events_since world_fresh (snd run)) = O
    ∧ w_config (snd run) = w_config world_fresh
    ∧ w_store (snd run) = w_store world_fresh
    ∧ (∀ switchuser,
         truthy (opt_val switchuser) = false →
         truthy (PStr "alice") = true → truthy (PStr "hunter2") = true →
         login sample_ux sample_host sample_provider_host sample_wallet_path
           false switchuser false (Some "alice") (Some "hunter2") world_fresh
         = run).
Proof.
  split; [reflexivity |].
  apply (login_with_username_password_only_prints sample_ux sample_host
           sample_provider_host sample_wallet_path world_fresh "alice"
           "hunter2").
  reflexivity.
Defined.

(** ** Further concrete runs *)

(** Logged in as alice, a wallet file; the user types a new password. *)
Definition world_set_password : World :=
  sample_world (sample_env true ["alice"] None)
    {["username" := PStr "alice"]} [] [Some "hunter2"].

(** The account service answers with a server error. *)
Definition world_service_down : World :=
  {| w_env := {| wallet_file_present := true;
                 wallet_machine_auth := sample_auth;
                 account_info_usernames := inl DataProviderError;
                 setup_outcome := None;
                 update_password_outcome := None |};
     w_config := {| cfg_machine_auth := None;
                    cfg_view := {["username" := PNone]} |};
     w_store := ∅;
     w_trace := [];
     w_int_answers := [];
     w_str_answers := [];
     w_interrupt := None |}.

(** Two accounts; the user types 5 and then cancels. *)
Definition world_two_accounts_cancel : World :=
  sample_world (sample_env true ["alice"; "bob"] None)
    {["username" := PNone]} [Some 5; None] [].


(** X7 at a concrete input: a config with no username. *)
Lemma set_password_without_account_witness :
  cfg_view (w_config world_fresh) !! "username" = None
  ∧ _set_password sample_ux sample_host sample_provider_host
      sample_wallet_path None world_fresh
    = (Ret tt, log [EvSecho "No account found." None] world_fresh).
Proof.
  split; [reflexivity |].
  apply (set_password_without_account sample_ux sample_host
           sample_provider_host sample_wallet_path world_fresh None);
    reflexivity.
Defined.

(** X8 at a concrete input: alice, a wallet file, the password typed. *)
Lemma set_password_sends_typed_password_witness :
  w_str_answers world_set_password = [Some "hunter2"]
  ∧ _set_password sample_ux sample_host sample_provider_host
      sample_wallet_path None world_set_password
    = (Ret tt,
       with_str_answers []
         (log ([EvGetPassword (PStr "alice")]
               ++ machine_auth_events sample_provider_host sample_wallet_path
                    world_set_password
               ++ [ EvRestClient sample_host (Some sample_auth)
                      (Some (PStr "alice"));
                    EvUpdatePassword "hunter2" ]) world_set_password)).
Proof.
  split; [reflexivity |].
  apply (set_password_sends_typed_password sample_ux sample_host
           sample_provider_host sample_wallet_path world_set_password None
           (PStr "alice") sample_auth "hunter2" []);
    reflexivity.
Defined.

(** X9 at a concrete input: the input ends at the password prompt. *)
Lemma set_password_cancelled_witness :
  hd None (w_str_answers world_three_accounts) = None
  ∧ let run := _set_password sample_ux sample_host sample_provider_host
                 sample_wallet_path None world_three_accounts in
    fst run = Ret tt
    ∧ events_since world_three_accounts (snd run) = [EvGetPassword PNone]
    ∧ w_config (snd run) = w_config world_three_accounts
    ∧ w_store (snd run) = w_store world_three_accounts.
Proof.
  split; [reflexivity |].
  apply (set_password_cancelled sample_ux sample_host sample_provider_host
           sample_wallet_path world_three_accounts None PNone);
    reflexivity.
Defined.

(** X10 at a concrete input: the account service answers with an error. *)
Lemma login_account_info_failure_witness :
  account_info_usernames (w_env world_service_down) = inl DataProviderError
  ∧ let run := _login sample_ux sample_host sample_provider_host
                 sample_wallet_path None world_service_down in
    run = (Raise DataProviderError,
           log (login_preamble sample_host sample_provider_host
                  sample_wallet_path world_service_down PNone sample_auth)
             world_service_down)
    ∧ count_events is_account_creation
        (events_since world_service_down (snd run)) = O
    ∧ count_events is_prompt (events_since world_service_down (snd run)) = O
    ∧ count_events is_config_call
        (events_since world_service_down (snd run)) = O
    ∧ w_config (snd run) = w_config world_service_down
    ∧ w_store (snd run) = w_store world_service_down.
Proof.
  split; [reflexivity |].
  apply (login_account_info_failure sample_ux sample_host
           sample_provider_host sample_wallet_path world_service_down None
           PNone sample_auth DataProviderError);
    reflexivity.
Defined.

(** X11 at a concrete input: two accounts, the user types 5 and cancels. *)
Lemma login_selection_cancelled_witness :
  w_int_answers world_two_accounts_cancel = map Some [5] ++ [None]
  ∧ let run := _login sample_ux sample_host sample_provider_host
                 sample_wallet_path None world_two_accounts_cancel in
    fst run = Raise Abort
    ∧ events_since world_two_accounts_cancel (snd run)
      = login_preamble sample_host sample_provider_host sample_wallet_path
          world_two_accounts_cancel PNone sample_auth
        ++ [EvSecho (registered_usernames_title sample_ux) None]
        ++ numbered_from 1 ["alice"; "bob"]
        ++ rejection_events sample_ux
             "Please select a number between 1 and 2" [5]
        ++ [EvPrompt (login_prompt sample_ux) false true]
    ∧ count_events is_config_call
        (events_since world_two_accounts_cancel (snd run)) = O
    ∧ w_config (snd run) = w_config world_two_accounts_cancel
    ∧ w_store (snd run) = w_store world_two_accounts_cancel.
Proof.
  split; [reflexivity |].
  apply (login_selection_cancelled sample_ux sample_host sample_provider_host
           sample_wallet_path world_two_accounts_cancel PNone sample_auth
           ["alice"; "bob"] [5] [None]
           "Please select a number between 1 and 2").
  - reflexivity.
  - reflexivity.
  - reflexivity.
  - reflexivity.
  - discriminate.
  - reflexivity.
  - reflexivity.
  - constructor; [right; cbn; lia | constructor].
  - right. reflexivity.
Defined.


(** X13 at a concrete input: nothing given, the input ends at once. *)
Lemma login_plain_cancelled_witness :
  hd None (w_str_answers world_fresh) = None
  ∧ let run := login sample_ux sample_host sample_provider_host
                 sample_wallet_path false None false None None world_fresh in
    fst run = Raise Abort
    ∧ events_since world_fresh (snd run) = [EvPrompt "Username" false false]
    ∧ w_config (snd run) = w_config world_fresh
    ∧ w_store (snd run) = w_store world_fresh.
Proof.
  split; [reflexivity |].
  apply (login_plain_cancelled sample_ux sample_host sample_provider_host
           sample_wallet_path world_fresh None None None);
    reflexivity.
Defined.
